(** * homeassistant.components.media_player.itunes

    A shallow embedding of the iTunes-API media player platform
    (src/homeassistant/components/media_player/itunes.py) and the
    properties of its two classes: the [Itunes] HTTP client and the
    [ItunesDevice] media player entity.

    Python values are embedded as [py_value]; floats are IEEE binary64
    (Rocq's primitive floats, the same format as CPython's float); a
    decoded JSON object is a [gmap string py_value].  A method that may
    perform an HTTP call or raise is a program of the free monad [prog]
    over one effect, a call into the requests library. *)

From Stdlib Require Import ZArith Floats.
From stdpp Require Import gmap strings.

Set Warnings "-inexact-float,-register-all".

Local Open Scope string_scope.
Local Open Scope Z_scope.

(** ** Python values *)

Inductive py_value : Type :=
| PyNone
| PyBool (b : bool)
| PyInt (n : Z)
| PyFloat (f : float)
| PyStr (s : string)
| PyList (l : list py_value)
| PyDict (d : gmap string py_value).

(** [v == s] for a string literal [s]: true only on an equal str. *)
Definition py_eq_str (v : py_value) (s : string) : bool :=
  match v with
  | PyStr t => bool_decide (t = s)
  | _ => false
  end.

(** [v is None] *)
Definition py_is_none (v : py_value) : bool :=
  match v with
  | PyNone => true
  | _ => false
  end.

(** [d.get(key, dflt)] *)
Definition dict_get (d : gmap string py_value) (key : string) (dflt : py_value)
  : py_value :=
  default dflt (d !! key).

(** ** Exceptions

    The classes that can reach this module.  [RequestException] stands
    for the root of the requests hierarchy and any member of it that is
    not listed by name. *)

Inductive exn : Type :=
| RequestException
| HTTPError
| ConnectionError
| Timeout
| TooManyRedirects
| ValueError
| TypeError
| AttributeError
| OverflowError
| UnboundLocalError.

(** [isinstance(e, requests.exceptions.HTTPError)] *)
Definition is_HTTPError (e : exn) : bool :=
  match e with
  | HTTPError => true
  | _ => false
  end.

(** [isinstance(e, requests.exceptions.RequestException)] *)
Definition is_RequestException (e : exn) : bool :=
  match e with
  | RequestException | HTTPError | ConnectionError | Timeout
  | TooManyRedirects => true
  | _ => false
  end.

(** ** Numbers

    [int(x)] of a float truncates toward zero and raises on nan and on
    the infinities; [float(n)] of an int rounds to nearest-even and
    raises when the result is out of range. *)

Inductive result (A : Type) : Type :=
| Ok (a : A)
| Err (e : exn).
Arguments Ok {A} a.
Arguments Err {A} e.

Definition py_int_of_float (x : float) : result Z :=
  match Prim2SF x with
  | S754_zero _ => Ok 0
  | S754_infinity _ => Err OverflowError
  | S754_nan => Err ValueError
  | S754_finite s m e =>
      let mag := Z.shiftl (Z.pos m) e in
      Ok (if s then - mag else mag)
  end.

Definition py_float_of_int (n : Z) : result float :=
  match binary_normalize prec emax n 0 false with
  | S754_infinity _ => Err OverflowError
  | sf => Ok (SF2Prim sf)
  end.

(** ** The requests library

    The three entry points the module uses.  [requests.put(url, data)]
    takes the second positional argument as the request body. *)

Inductive requests_call : Type :=
| requests_get (url : string)
| requests_put (url : string) (data : py_value)
| requests_delete (url : string).

(** A [Response] object: the status line and what [response.json()]
    yields, [None] when the body is not valid JSON. *)
Record Response : Type := {
  status_code : Z;
  decoded : option py_value
}.

(** What a call into requests does: it hands back a [Response] for
    every HTTP status, or raises.  requests raises [HTTPError] only from
    [Response.raise_for_status()]. *)
Inductive call_outcome : Type :=
| Returned (r : Response)
| Failed (e : exn).

(** ** Programs *)

Inductive prog (A : Type) : Type :=
| Ret (a : A)
| Raise (e : exn)
| Call (c : requests_call) (k : call_outcome -> prog A).
Arguments Ret {A} a.
Arguments Raise {A} e.
Arguments Call {A} c k.

Fixpoint bind {A B : Type} (p : prog A) (f : A -> prog B) : prog B :=
  match p with
  | Ret a => f a
  | Raise e => Raise e
  | Call c k => Call c (fun o => bind (k o) f)
  end.

Notation "x <- p ;; q" := (bind p (fun x => q))
  (at level 100, p at next level, right associativity).

(** [try: p  except HTTPError: h1  except RequestException: h2] *)
Fixpoint try_except {A : Type} (p : prog A) (h1 h2 : prog A) : prog A :=
  match p with
  | Ret a => Ret a
  | Raise e =>
      if is_HTTPError e then h1
      else if is_RequestException e then h2
      else Raise e
  | Call c k => Call c (fun o => try_except (k o) h1 h2)
  end.

(** One call into requests, returning the response or re-raising. *)
Definition call (c : requests_call) : prog Response :=
  Call c (fun o =>
    match o with
    | Returned r => Ret r
    | Failed e => Raise e
    end).

(** [response.json()] *)
Definition Response_json (r : Response) : prog py_value :=
  match decoded r with
  | Some v => Ret v
  | None => Raise ValueError
  end.

(** The call a program is waiting on, if any. *)
Definition pending {A : Type} (p : prog A) : option requests_call :=
  match p with
  | Call c _ => Some c
  | _ => None
  end.

(** Resume a program with the outcome of the call it is waiting on. *)
Definition answer {A : Type} (o : call_outcome) (p : prog A) : prog A :=
  match p with
  | Call _ k => k o
  | _ => p
  end.

(** Run a program against a server. *)
Fixpoint run {A : Type} (net : requests_call -> call_outcome) (p : prog A)
  : result A :=
  match p with
  | Ret a => Ok a
  | Raise e => Err e
  | Call c k => run net (k (net c))
  end.

(** ** Decimal rendering: [str(n)] of an int *)

Definition digit_char (d : Z) : string :=
  String (Ascii.ascii_of_nat (48 + Z.to_nat d)) "".

Fixpoint pos_digits (fuel : nat) (n : Z) (acc : string) : string :=
  match fuel with
  | O => acc
  | S fuel' =>
      let acc' := digit_char (n mod 10) +:+ acc in
      if n <? 10 then acc' else pos_digits fuel' (n / 10) acc'
  end.

Definition py_str_of_int (n : Z) : string :=
  if n <? 0
  then "-" +:+ pos_digits (S (Z.to_nat (Z.log2 (- n)))) (- n) ""
  else pos_digits (S (Z.to_nat (Z.log2 n))) n "".

(** ** class Itunes *)

Module Itunes.

Record t : Type := {
  host : string;
  port : Z
}.

Definition __init__ (host : string) (port : Z) : t :=
  {| host := host; port := port |}.

Definition _base_url (self : t) : string :=
  (host self +:+ ":") +:+ py_str_of_int (port self).

Definition error_sentinel : py_value :=
  PyDict {[ "player_state" := PyStr "error" ]}.

Definition offline_sentinel : py_value :=
  PyDict {[ "player_state" := PyStr "offline" ]}.

Definition _request (self : t) (method path : string) (params : py_value)
  : prog py_value :=
  let url := _base_url self +:+ path in
  try_except
    (response <-
       (if bool_decide (method = "GET") then call (requests_get url)
        else if bool_decide (method = "POST") then call (requests_put url params)
        else if bool_decide (method = "PUT") then call (requests_put url params)
        else if bool_decide (method = "DELETE") then call (requests_delete url)
        else Raise UnboundLocalError) ;;
     Response_json response)
    (Ret error_sentinel)
    (Ret offline_sentinel).

Definition _command (self : t) (named_command : string) : prog py_value :=
  _request self "PUT" ("/" +:+ named_command) PyNone.

Definition now_playing (self : t) : prog py_value :=
  _request self "GET" "/now_playing" PyNone.

Definition set_volume (self : t) (level : py_value) : prog py_value :=
  _request self "PUT" "/volume" (PyDict {[ "level" := level ]}).

Definition set_muted (self : t) (muted : py_value) : prog py_value :=
  _request self "PUT" "/mute" (PyDict {[ "muted" := muted ]}).

Definition play (self : t) : prog py_value := _command self "play".

Definition pause (self : t) : prog py_value := _command self "pause".

Definition next (self : t) : prog py_value := _command self "next".

Definition previous (self : t) : prog py_value := _command self "previous".

Definition artwork_url (self : t) : prog string :=
  Ret (_base_url self +:+ "/artwork").

End Itunes.

(** ** Constants of the host

    Modelled from the spec: homeassistant.const is not among the sources;
    the spec names the three normalized playback states the module
    imports from it as idle, playing and paused. *)

Definition STATE_IDLE : string := "idle".
Definition STATE_PLAYING : string := "playing".
Definition STATE_PAUSED : string := "paused".

(** The capability flags and the media type of
    homeassistant.components.media_player, whose values the sources do
    not give: the module is embedded over any choice of them. *)
Record MediaPlayer : Type := {
  MEDIA_TYPE_MUSIC : string;
  SUPPORT_PAUSE : Z;
  SUPPORT_SEEK : Z;
  SUPPORT_VOLUME_SET : Z;
  SUPPORT_VOLUME_MUTE : Z;
  SUPPORT_PREVIOUS_TRACK : Z;
  SUPPORT_NEXT_TRACK : Z
}.

Definition SUPPORT_ITUNES (mp : MediaPlayer) : Z :=
  Z.lor (Z.lor (Z.lor (Z.lor (Z.lor
    (SUPPORT_PAUSE mp) (SUPPORT_VOLUME_SET mp)) (SUPPORT_VOLUME_MUTE mp))
    (SUPPORT_PREVIOUS_TRACK mp)) (SUPPORT_NEXT_TRACK mp)) (SUPPORT_SEEK mp).

Definition lift {A : Type} (r : result A) : prog A :=
  match r with
  | Ok a => Ret a
  | Err e => Raise e
  end.

(** ** class ItunesDevice

    A method that assigns to [self] returns the updated object.  The only
    assignments after construction are those of [update_state], which
    raises, if at all, before its first one: a method that raises leaves
    the object as it was. *)

Module ItunesDevice.

Record t : Type := {
  _name : string;
  _host : string;
  _port : Z;
  client : Itunes.t;
  current_volume : py_value;
  muted : py_value;
  current_title : py_value;
  current_album : py_value;
  current_artist : py_value;
  current_playlist : py_value;
  content_id : py_value;
  player_state : py_value
}.

Definition update_state (self : t) (state_hash : py_value) : prog t :=
  match state_hash with
  | PyDict d =>
      Ret {| _name := _name self;
             _host := _host self;
             _port := _port self;
             client := client self;
             player_state := dict_get d "player_state" PyNone;
             current_volume := dict_get d "volume" (PyInt 0);
             muted := dict_get d "muted" PyNone;
             current_title := dict_get d "name" PyNone;
             current_album := dict_get d "album" PyNone;
             current_artist := dict_get d "artist" PyNone;
             current_playlist := dict_get d "playlist" PyNone;
             content_id := dict_get d "id" PyNone |}
  | _ => Raise AttributeError
  end.

Definition update (self : t) : prog t :=
  now_playing <- Itunes.now_playing (client self) ;;
  update_state self now_playing.

Definition __init__ (name host : string) (port : Z) : prog t :=
  update {| _name := name;
            _host := host;
            _port := port;
            client := Itunes.__init__ host port;
            current_volume := PyNone;
            muted := PyNone;
            current_title := PyNone;
            current_album := PyNone;
            current_artist := PyNone;
            current_playlist := PyNone;
            content_id := PyNone;
            player_state := PyNone |}.

Definition name (self : t) : string := _name self.

Definition state (self : t) : string :=
  if py_eq_str (player_state self) "offline" || py_is_none (player_state self)
  then "offline"
  else if py_eq_str (player_state self) "error" then "error"
  else if py_eq_str (player_state self) "stopped" then STATE_IDLE
  else if py_eq_str (player_state self) "paused" then STATE_PAUSED
  else STATE_PLAYING.

Definition is_volume_muted (self : t) : py_value := muted self.

Definition volume_level (self : t) : prog float :=
  match current_volume self with
  | PyInt n => f <- lift (py_float_of_int n) ;; Ret (f / 100)%float
  | PyBool b => Ret ((if b then 1 else 0) / 100)%float
  | PyFloat f => Ret (f / 100)%float
  | _ => Raise TypeError
  end.

Definition media_content_id (self : t) : py_value := content_id self.

Definition media_content_type (mp : MediaPlayer) (self : t) : string :=
  MEDIA_TYPE_MUSIC mp.

Definition placeholder_image : string :=
  "https://cloud.githubusercontent.com/assets/260/9829355" +:+
  "/33fab972-58cf-11e5-8ea2-2ca74bdaae40.png".

Definition media_image_url (self : t) : prog string :=
  if (py_eq_str (player_state self) STATE_PLAYING
      || py_eq_str (player_state self) STATE_IDLE
      || py_eq_str (player_state self) STATE_PAUSED)
     && negb (py_is_none (current_title self))
  then Itunes.artwork_url (client self)
  else Ret placeholder_image.

Definition media_title (self : t) : py_value := current_title self.

Definition media_artist (self : t) : py_value := current_artist self.

Definition media_album_name (self : t) : py_value := current_album self.

Definition supported_media_commands (mp : MediaPlayer) (self : t) : Z :=
  SUPPORT_ITUNES mp.

Definition set_volume_level (self : t) (volume : float) : prog t :=
  level <- lift (py_int_of_float (volume * 100)%float) ;;
  response <- Itunes.set_volume (client self) (PyInt level) ;;
  update_state self response.

Definition mute_volume (self : t) (mute : bool) : prog t :=
  response <- Itunes.set_muted (client self) (PyBool mute) ;;
  update_state self response.

Definition media_play (self : t) : prog t :=
  response <- Itunes.play (client self) ;;
  update_state self response.

Definition media_pause (self : t) : prog t :=
  response <- Itunes.pause (client self) ;;
  update_state self response.

Definition media_next_track (self : t) : prog t :=
  response <- Itunes.next (client self) ;;
  update_state self response.

Definition media_previous_track (self : t) : prog t :=
  response <- Itunes.previous (client self) ;;
  update_state self response.

End ItunesDevice.

(** [setup_platform]: the one device handed to [add_devices], built from
    the configuration with the default name. *)
Definition setup_platform (name : option string) (host : string) (port : Z)
  : prog (list ItunesDevice.t) :=
  dev <- ItunesDevice.__init__ (default "iTunes" name) host port ;;
  Ret [dev].

(** ** Specification-side definitions *)

(** The state cascade as the specification words it: five rules, the
    last one for every value the first four leave over. *)
Inductive normalized_state : py_value -> string -> Prop :=
| ns_absent : normalized_state PyNone "offline"
| ns_offline : normalized_state (PyStr "offline") "offline"
| ns_error : normalized_state (PyStr "error") "error"
| ns_stopped : normalized_state (PyStr "stopped") "idle"
| ns_paused : normalized_state (PyStr "paused") "paused"
| ns_otherwise v :
    v <> PyNone -> v <> PyStr "offline" -> v <> PyStr "error" ->
    v <> PyStr "stopped" -> v <> PyStr "paused" ->
    normalized_state v "playing".

(** The cached fields of a device, in the order [update_state] assigns
    them. *)
Definition cached (self : ItunesDevice.t) : list py_value :=
  [ ItunesDevice.player_state self;
    ItunesDevice.current_volume self;
    ItunesDevice.muted self;
    ItunesDevice.current_title self;
    ItunesDevice.current_album self;
    ItunesDevice.current_artist self;
    ItunesDevice.current_playlist self;
    ItunesDevice.content_id self ].

(** The value a response holds under a key, or the key's default. *)
Definition key_or (d : gmap string py_value) (key : string) (dflt : py_value)
  : py_value :=
  match d !! key with
  | Some v => v
  | None => dflt
  end.

(** The operations of the adapter that talk to the server. *)
Inductive adapter_op : Type :=
| op_update
| op_set_volume_level (volume : float)
| op_mute_volume (mute : bool)
| op_media_play
| op_media_pause
| op_media_next_track
| op_media_previous_track.

Definition perform (op : adapter_op) (self : ItunesDevice.t)
  : prog ItunesDevice.t :=
  match op with
  | op_update => ItunesDevice.update self
  | op_set_volume_level volume => ItunesDevice.set_volume_level self volume
  | op_mute_volume mute => ItunesDevice.mute_volume self mute
  | op_media_play => ItunesDevice.media_play self
  | op_media_pause => ItunesDevice.media_pause self
  | op_media_next_track => ItunesDevice.media_next_track self
  | op_media_previous_track => ItunesDevice.media_previous_track self
  end.

(** [round(x)] of a float as the specification uses it: the nearest
    integer, a tie going to the even one. *)
Definition py_round_of_float (x : float) : result Z :=
  match Prim2SF x with
  | S754_zero _ => Ok 0
  | S754_infinity _ => Err OverflowError
  | S754_nan => Err ValueError
  | S754_finite s m e =>
      let mag :=
        if 0 <=? e then Z.pos m * 2 ^ e
        else
          let q := Z.pos m / 2 ^ (- e) in
          let r := Z.pos m mod 2 ^ (- e) in
          match 2 * r ?= 2 ^ (- e) with
          | Lt => q
          | Gt => q + 1
          | Eq => if Z.even q then q else q + 1
          end in
      Ok (if s then - mag else mag)
  end.

(** The request [set_volume(level)] puts on the wire. *)
Definition volume_request (c : Itunes.t) (level : Z) : requests_call :=
  requests_put (Itunes._base_url c +:+ "/volume")
               (PyDict {[ "level" := PyInt level ]}).

(** A server answer with a JSON body. *)
Definition json_response (status : Z) (body : py_value) : call_outcome :=
  Returned {| status_code := status; decoded := Some body |}.

(** A server answer whose body is not JSON. *)
Definition garbage_response (status : Z) : call_outcome :=
  Returned {| status_code := status; decoded := None |}.

(** The device of the module's docstring, before its first update. *)
Definition kitchen : ItunesDevice.t :=
  {| ItunesDevice._name := "iTunes";
     ItunesDevice._host := "http://192.168.1.16";
     ItunesDevice._port := 8181;
     ItunesDevice.client := Itunes.__init__ "http://192.168.1.16" 8181;
     ItunesDevice.current_volume := PyNone;
     ItunesDevice.muted := PyNone;
     ItunesDevice.current_title := PyNone;
     ItunesDevice.current_album := PyNone;
     ItunesDevice.current_artist := PyNone;
     ItunesDevice.current_playlist := PyNone;
     ItunesDevice.content_id := PyNone;
     ItunesDevice.player_state := PyNone |}.

(** The device after an update answered with
    [{"player_state": "stopped", "name": "Song A"}]. *)
Definition stopped_with_title : ItunesDevice.t :=
  {| ItunesDevice._name := "iTunes";
     ItunesDevice._host := "http://192.168.1.16";
     ItunesDevice._port := 8181;
     ItunesDevice.client := Itunes.__init__ "http://192.168.1.16" 8181;
     ItunesDevice.current_volume := PyInt 0;
     ItunesDevice.muted := PyNone;
     ItunesDevice.current_title := PyStr "Song A";
     ItunesDevice.current_album := PyNone;
     ItunesDevice.current_artist := PyNone;
     ItunesDevice.current_playlist := PyNone;
     ItunesDevice.content_id := PyNone;
     ItunesDevice.player_state := PyStr "stopped" |}.

(** The device after an update answered with
    [{"player_state": "playing", "volume": 50, "name": "Song A"}]. *)
Definition playing_song_a : ItunesDevice.t :=
  {| ItunesDevice._name := "iTunes";
     ItunesDevice._host := "http://192.168.1.16";
     ItunesDevice._port := 8181;
     ItunesDevice.client := Itunes.__init__ "http://192.168.1.16" 8181;
     ItunesDevice.current_volume := PyInt 50;
     ItunesDevice.muted := PyNone;
     ItunesDevice.current_title := PyStr "Song A";
     ItunesDevice.current_album := PyNone;
     ItunesDevice.current_artist := PyNone;
     ItunesDevice.current_playlist := PyNone;
     ItunesDevice.content_id := PyNone;
     ItunesDevice.player_state := PyStr "playing" |}.

(** The four verbs [_request] knows. *)
Definition known_method (method : string) : Prop :=
  method = "GET" \/ method = "POST" \/ method = "PUT" \/ method = "DELETE".

Ltac known_method_cases H :=
  destruct H as [-> | [-> | [-> | ->]]].

(** The level of a request to the volume endpoint. *)
Definition level_of (rc : option requests_call) : option py_value :=
  match rc with
  | Some (requests_put _ (PyDict d)) => d !! "level"
  | _ => None
  end.

(** A cached volume that is a number of the volume range, and that
    number as a float: an integer or a float from 0 to 100; a JSON
    boolean counts as the integer 0 or 1, as in Python. *)
Inductive volume_number : py_value -> float -> Prop :=
| vn_int n :
    0 <= n <= 100 ->
    volume_number (PyInt n) (PrimFloat.of_uint63 (Uint63.of_Z n))
| vn_float f :
    (0 <=? f)%float = true -> (f <=? 100)%float = true ->
    volume_number (PyFloat f) f
| vn_bool (b : bool) :
    volume_number (PyBool b) (if b then 1 else 0)%float.

(** The integer volume an answer makes the device cache: the one the
    response holds under the volume key, or 0 when the response has no
    such key and when the call failed inside requests, the sentinels
    having none. *)
Inductive merged_volume : call_outcome -> Z -> Prop :=
| mv_present status d n :
    d !! "volume" = Some (PyInt n) ->
    merged_volume (json_response status (PyDict d)) n
| mv_absent status d :
    d !! "volume" = None ->
    merged_volume (json_response status (PyDict d)) 0
| mv_failed e :
    is_RequestException e = true ->
    merged_volume (Failed e) 0.

(** The cached volume is the integer [n]: it is not None, dividing it
    does not raise [TypeError], the level is [float(n) / 100.0] whenever
    [n] converts to a float, which every [n] of magnitude below [2^1023]
    does, and nothing but that conversion can raise. *)
Definition caches_integer_volume (self : ItunesDevice.t) (n : Z) : Prop :=
  ItunesDevice.current_volume self = PyInt n /\
  ItunesDevice.current_volume self <> PyNone /\
  ItunesDevice.volume_level self <> Raise TypeError /\
  (forall e, ItunesDevice.volume_level self = Raise e -> e = OverflowError) /\
  (Z.abs n < 2 ^ 1023 ->
   exists f, py_float_of_int n = Ok f /\
             ItunesDevice.volume_level self = Ret (f / 100)%float) /\
  (0 <= n <= 100 ->
   ItunesDevice.volume_level self =
     Ret (PrimFloat.of_uint63 (Uint63.of_Z n) / 100)%float).

(** A session: operations performed one after the other on the same
    device, each paired with the outcome of the call it makes. *)
Fixpoint session (steps : list (adapter_op * call_outcome))
    (self : ItunesDevice.t) : prog ItunesDevice.t :=
  match steps with
  | [] => Ret self
  | (op, o) :: rest =>
      self' <- answer o (perform op self) ;;
      session rest self'
  end.

(** The URL a call into requests is made on. *)
Definition request_url (rc : requests_call) : string :=
  match rc with
  | requests_get url => url
  | requests_put url _ => url
  | requests_delete url => url
  end.

(** The levels of the volume range that do not survive being read as
    [volume_level] and written back with [set_volume_level]. *)
Definition drifting_level (n : Z) : bool :=
  (n =? 29) || (n =? 57) || (n =? 58).

(** The answer [{"player_state": "playing", "volume": 50, "name": "Song A"}]. *)
Definition song_a_response : call_outcome :=
  json_response 200
    (PyDict {[ "player_state" := PyStr "playing"; "volume" := PyInt 50;
               "name" := PyStr "Song A" ]}).

(** [k] steps of [shr_1] on a mantissa [m] leave the quotient of [m] by
    [2^k], and no trace of a remainder when there is none. *)
Definition shifted (m : Z) (k : Z) (mrs : shr_record) : Prop :=
  shr_m mrs = m / 2 ^ k /\
  (m mod 2 ^ k = 0 -> shr_r mrs = false /\ shr_s mrs = false).

(** Reading a decimal numeral, most significant digit first; [None] on
    a character that is not a digit and on the empty string. *)
Fixpoint read_digits (s : string) (acc : Z) : option Z :=
  match s with
  | EmptyString => Some acc
  | String c rest =>
      let d := Z.of_nat (Ascii.nat_of_ascii c) - 48 in
      if (0 <=? d) && (d <=? 9) then read_digits rest (10 * acc + d) else None
  end.

Definition read_decimal (s : string) : option Z :=
  match s with
  | EmptyString => None
  | _ => read_digits s 0
  end.

(** * Properties *)

(** ** The numeric helpers on examples *)

Example py_str_of_int_examples :
  py_str_of_int 0 = "0" /\ py_str_of_int 9 = "9" /\ py_str_of_int 10 = "10" /\
  py_str_of_int 80 = "80" /\ py_str_of_int 8181 = "8181" /\
  py_str_of_int 65535 = "65535" /\ py_str_of_int (-45) = "-45".
Proof. repeat split. Qed.

Example py_int_of_float_examples :
  py_int_of_float 0 = Ok 0 /\ py_int_of_float 0.5 = Ok 0 /\
  py_int_of_float 99.999 = Ok 99 /\ py_int_of_float (-1.5) = Ok (-1) /\
  py_int_of_float (0.29 * 100) = Ok 28 /\ py_int_of_float 1e300 <> Err OverflowError /\
  py_int_of_float infinity = Err OverflowError /\
  py_int_of_float nan = Err ValueError.
Proof. repeat split; discriminate. Qed.

Example py_float_of_int_examples :
  py_float_of_int 0 = Ok 0%float /\ py_float_of_int 50 = Ok 50%float /\
  py_float_of_int (-3) = Ok (-3)%float /\
  py_float_of_int (2 ^ 53 + 1) = Ok 9007199254740992%float /\
  py_float_of_int (2 ^ 1024) = Err OverflowError.
Proof. repeat split. Qed.


(** ** The state cascade *)

Lemma normalized_state_functional v s1 s2 :
  normalized_state v s1 -> normalized_state v s2 -> s1 = s2.
Proof.
  intros H1 H2.
  destruct H1; inversion H2; subst; try reflexivity; congruence.
Qed.

Lemma py_eq_str_true v s : py_eq_str v s = true <-> v = PyStr s.
Proof.
  destruct v; simpl; try (split; [discriminate | congruence]).
  rewrite bool_decide_eq_true. split; congruence.
Qed.

Lemma py_eq_str_false v s : py_eq_str v s = false <-> v <> PyStr s.
Proof.
  rewrite <- py_eq_str_true. destruct (py_eq_str v s); split; congruence.
Qed.

Lemma py_is_none_false v : py_is_none v = false <-> v <> PyNone.
Proof. destruct v; simpl; split; congruence. Qed.

(** C1: for every cached [player_state], the [state] property follows the
    five-way cascade: absent or offline gives offline, error gives error,
    stopped gives idle, paused gives paused, and every other value
    (playing, any unrecognized string) gives playing. *)
Theorem state_follows_cascade (self : ItunesDevice.t) :
  normalized_state (ItunesDevice.player_state self) (ItunesDevice.state self).
Proof.
  unfold ItunesDevice.state.
  destruct (py_eq_str (ItunesDevice.player_state self) "offline") eqn:Hoff.
  { apply py_eq_str_true in Hoff. rewrite Hoff. constructor. }
  destruct (py_is_none (ItunesDevice.player_state self)) eqn:Hnone.
  { destruct (ItunesDevice.player_state self); try discriminate. constructor. }
  simpl.
  destruct (py_eq_str (ItunesDevice.player_state self) "error") eqn:Herr.
  { apply py_eq_str_true in Herr. rewrite Herr. constructor. }
  destruct (py_eq_str (ItunesDevice.player_state self) "stopped") eqn:Hst.
  { apply py_eq_str_true in Hst. rewrite Hst. constructor. }
  destruct (py_eq_str (ItunesDevice.player_state self) "paused") eqn:Hpa.
  { apply py_eq_str_true in Hpa. rewrite Hpa. constructor. }
  apply ns_otherwise.
  - by apply py_is_none_false.
  - by apply py_eq_str_false.
  - by apply py_eq_str_false.
  - by apply py_eq_str_false.
  - by apply py_eq_str_false.
Qed.

(** ** The artwork URL *)

(** What the property tests is the cached [player_state] itself, not the
    value of [state]. *)
Lemma media_image_url_raw (self : ItunesDevice.t) :
  ((ItunesDevice.player_state self = PyStr "playing" \/
    ItunesDevice.player_state self = PyStr "idle" \/
    ItunesDevice.player_state self = PyStr "paused") /\
   ItunesDevice.current_title self <> PyNone ->
   ItunesDevice.media_image_url self =
     Itunes.artwork_url (ItunesDevice.client self)) /\
  (~ ((ItunesDevice.player_state self = PyStr "playing" \/
       ItunesDevice.player_state self = PyStr "idle" \/
       ItunesDevice.player_state self = PyStr "paused") /\
      ItunesDevice.current_title self <> PyNone) ->
   ItunesDevice.media_image_url self = Ret ItunesDevice.placeholder_image).
Proof.
  unfold ItunesDevice.media_image_url, STATE_PLAYING, STATE_IDLE, STATE_PAUSED.
  destruct (py_eq_str (ItunesDevice.player_state self) "playing") eqn:E1;
  destruct (py_eq_str (ItunesDevice.player_state self) "idle") eqn:E2;
  destruct (py_eq_str (ItunesDevice.player_state self) "paused") eqn:E3;
  destruct (py_is_none (ItunesDevice.current_title self)) eqn:E4; simpl;
  rewrite ?py_eq_str_true, ?py_eq_str_false in *;
  try apply py_is_none_false in E4;
  try (destruct (ItunesDevice.current_title self); try discriminate E4);
  split; intros H; try reflexivity; try tauto; exfalso; apply H; tauto.
Qed.

(** C2: [media_image_url] is meant to give the artwork URL exactly when
    the normalized state is playing, idle or paused and a title is
    cached.  On a stopped player with a title the state is idle and the
    title is there, yet the property gives the placeholder, which is not
    the artwork URL. *)
Theorem media_image_url_stopped_with_title :
  answer (json_response 200
            (PyDict {[ "player_state" := PyStr "stopped";
                       "name" := PyStr "Song A" ]}))
         (ItunesDevice.update kitchen) = Ret stopped_with_title /\
  ItunesDevice.state stopped_with_title = "idle" /\
  ItunesDevice.media_title stopped_with_title = PyStr "Song A" /\
  ItunesDevice.media_image_url stopped_with_title =
    Ret ItunesDevice.placeholder_image /\
  Itunes.artwork_url (ItunesDevice.client stopped_with_title) =
    Ret "http://192.168.1.16:8181/artwork".
Proof. repeat split; vm_compute; reflexivity. Qed.

(** C9: [artwork_url] returns the base URL, host then a colon then the
    port, followed by /artwork, and waits on no call into requests. *)
Theorem artwork_url_pure (host : string) (port : Z) :
  Itunes.artwork_url (Itunes.__init__ host port) =
    Ret (((host +:+ ":") +:+ py_str_of_int port) +:+ "/artwork") /\
  Itunes.artwork_url (Itunes.__init__ host port) =
    Ret (Itunes._base_url (Itunes.__init__ host port) +:+ "/artwork") /\
  pending (Itunes.artwork_url (Itunes.__init__ host port)) = None.
Proof. repeat split. Qed.

Example artwork_url_docstring :
  run (fun _ => Failed ConnectionError)
      (Itunes.artwork_url (Itunes.__init__ "http://192.168.1.16" 8181))
  = Ok "http://192.168.1.16:8181/artwork".
Proof. reflexivity. Qed.

(** ** The capability mask *)

(** C8: [supported_media_commands] is the same mask for every device
    state, and a bit is set in it exactly when it is set in one of the
    six flags pause, volume-set, mute, previous-track, next-track and
    seek. *)
Theorem supported_commands_static (mp : MediaPlayer) :
  (forall self1 self2,
     ItunesDevice.supported_media_commands mp self1 =
     ItunesDevice.supported_media_commands mp self2) /\
  (forall self i,
     Z.testbit (ItunesDevice.supported_media_commands mp self) i =
     Z.testbit (SUPPORT_PAUSE mp) i || Z.testbit (SUPPORT_VOLUME_SET mp) i
     || Z.testbit (SUPPORT_VOLUME_MUTE mp) i
     || Z.testbit (SUPPORT_PREVIOUS_TRACK mp) i
     || Z.testbit (SUPPORT_NEXT_TRACK mp) i || Z.testbit (SUPPORT_SEEK mp) i).
Proof.
  split; [reflexivity |].
  intros self i.
  unfold ItunesDevice.supported_media_commands, SUPPORT_ITUNES.
  by rewrite !Z.lor_spec.
Qed.

(** ** The transport client *)

(** A known verb makes exactly one call into requests. *)
Lemma request_calls_once c method path params :
  known_method method ->
  exists rc, pending (Itunes._request c method path params) = Some rc.
Proof.
  intros H. known_method_cases H; eexists; reflexivity.
Qed.

(** [requests] raising [HTTPError] gives the error sentinel. *)
Lemma request_HTTPError c method path params :
  known_method method ->
  answer (Failed HTTPError) (Itunes._request c method path params) =
  Ret Itunes.error_sentinel.
Proof. intros H. known_method_cases H; reflexivity. Qed.

(** Any other member of the requests hierarchy (no connection, refused,
    name not resolved, timed out) gives the offline sentinel. *)
Lemma request_transport_failure c method path params e :
  known_method method ->
  is_RequestException e = true -> is_HTTPError e = false ->
  answer (Failed e) (Itunes._request c method path params) =
  Ret Itunes.offline_sentinel.
Proof.
  intros H He Hh.
  known_method_cases H; simpl; by rewrite Hh, He.
Qed.

(** A response with a JSON body is returned as decoded, whatever its
    status. *)
Lemma request_json_body c method path params status body :
  known_method method ->
  answer (json_response status body) (Itunes._request c method path params) =
  Ret body.
Proof. intros H. known_method_cases H; reflexivity. Qed.

(** A response whose body is not JSON raises out of [_request]. *)
Lemma request_garbage_body c method path params status :
  known_method method ->
  answer (garbage_response status) (Itunes._request c method path params) =
  Raise ValueError.
Proof. intros H. known_method_cases H; reflexivity. Qed.

(** An exception outside the requests hierarchy is not caught. *)
Lemma request_other_exception c method path params e :
  known_method method ->
  is_RequestException e = false ->
  answer (Failed e) (Itunes._request c method path params) = Raise e.
Proof.
  intros H He.
  assert (Hh : is_HTTPError e = false) by (destruct e; done).
  known_method_cases H; simpl; by rewrite Hh, He.
Qed.

(** C3: an HTTP error status is meant to give the error sentinel.  A
    response with status 500 is handed back by requests like any other,
    so its decoded body is returned and the sentinel is not. *)
Theorem http_error_status_returns_body :
  (forall c status body,
     answer (json_response status body) (Itunes.now_playing c) = Ret body) /\
  answer (json_response 500 (PyDict {[ "error" := PyStr "Internal Server Error" ]}))
         (Itunes.now_playing (Itunes.__init__ "http://192.168.1.16" 8181))
    = Ret (PyDict {[ "error" := PyStr "Internal Server Error" ]}) /\
  PyDict {[ "error" := PyStr "Internal Server Error" ]} <> Itunes.error_sentinel /\
  (exists self',
     answer (json_response 500
               (PyDict {[ "error" := PyStr "Internal Server Error" ]}))
            (ItunesDevice.update kitchen) = Ret self' /\
     ItunesDevice.player_state self' = PyNone /\
     ItunesDevice.state self' = "offline").
Proof.
  split; [reflexivity |].
  split; [reflexivity |].
  split.
  { intros H.
    apply (f_equal (fun v => match v with
                             | PyDict d => d !! "player_state"
                             | _ => None
                             end)) in H.
    vm_compute in H. discriminate. }
  eexists. repeat split.
Qed.

(** C4: no exception is meant to leave an operation.  A body that is
    valid JSON but not an object raises [AttributeError] out of every
    adapter operation, and a body that is not JSON raises [ValueError]
    out of the client. *)
Theorem exception_escapes :
  answer (json_response 200 (PyList [])) (ItunesDevice.update kitchen) =
    Raise AttributeError /\
  (forall self,
     answer (json_response 200 (PyList [])) (ItunesDevice.update self) =
     Raise AttributeError) /\
  (forall self,
     answer (json_response 200 (PyList []))
            (ItunesDevice.set_volume_level self 0.5) = Raise AttributeError) /\
  (forall self mute,
     answer (json_response 200 (PyList []))
            (ItunesDevice.mute_volume self mute) = Raise AttributeError) /\
  (forall self,
     answer (json_response 200 (PyList [])) (ItunesDevice.media_play self) =
     Raise AttributeError) /\
  (forall self,
     answer (json_response 200 (PyList [])) (ItunesDevice.media_pause self) =
     Raise AttributeError) /\
  (forall self,
     answer (json_response 200 (PyList []))
            (ItunesDevice.media_next_track self) = Raise AttributeError) /\
  (forall self,
     answer (json_response 200 (PyList []))
            (ItunesDevice.media_previous_track self) = Raise AttributeError) /\
  (forall name host port,
     answer (json_response 200 (PyList []))
            (ItunesDevice.__init__ name host port) = Raise AttributeError) /\
  (forall c status,
     answer (garbage_response status) (Itunes.now_playing c) =
     Raise ValueError) /\
  (forall self status,
     answer (garbage_response status) (ItunesDevice.update self) =
     Raise ValueError).
Proof. repeat split. Qed.

(** ** The cached state *)

(** C5: [update_state] overwrites the whole cached state: every cached
    field becomes the response's value under its key, or the default
    (None, 0 for the volume) when the key is absent, whatever was cached
    before; after a refused connection the cached title is None. *)
Theorem update_state_overwrites :
  (forall self d,
     exists self',
       ItunesDevice.update_state self (PyDict d) = Ret self' /\
       cached self' =
         [ key_or d "player_state" PyNone; key_or d "volume" (PyInt 0);
           key_or d "muted" PyNone; key_or d "name" PyNone;
           key_or d "album" PyNone; key_or d "artist" PyNone;
           key_or d "playlist" PyNone; key_or d "id" PyNone ] /\
       ItunesDevice.name self' = ItunesDevice.name self /\
       ItunesDevice.client self' = ItunesDevice.client self) /\
  (forall self,
     exists self',
       answer (Failed ConnectionError) (ItunesDevice.update self) = Ret self' /\
       cached self' =
         [ PyStr "offline"; PyInt 0; PyNone; PyNone; PyNone; PyNone; PyNone;
           PyNone ] /\
       ItunesDevice.media_title self' = PyNone /\
       ItunesDevice.state self' = "offline") /\
  (forall self,
     exists self',
       answer (Failed HTTPError) (ItunesDevice.update self) = Ret self' /\
       cached self' =
         [ PyStr "error"; PyInt 0; PyNone; PyNone; PyNone; PyNone; PyNone;
           PyNone ] /\
       ItunesDevice.media_title self' = PyNone /\
       ItunesDevice.state self' = "error").
Proof.
  split; [| split].
  - intros self d. eexists. split; [reflexivity |].
    repeat split.
  - intros self. eexists. split; [reflexivity |]. repeat split.
  - intros self. eexists. split; [reflexivity |]. repeat split.
Qed.

(** The title of a song that was playing is gone after the failure. *)
Example title_lost_on_refused_connection :
  forall self self1,
    answer (json_response 200
              (PyDict {[ "player_state" := PyStr "playing";
                         "volume" := PyInt 50;
                         "name" := PyStr "Song A" ]}))
           (ItunesDevice.update self) = Ret self1 ->
    ItunesDevice.media_title self1 = PyStr "Song A" /\
    exists self2,
      answer (Failed ConnectionError) (ItunesDevice.media_pause self1) = Ret self2 /\
      ItunesDevice.media_title self2 = PyNone.
Proof.
  intros self self1 H. vm_compute in H. injection H as <-.
  split; [reflexivity |]. eexists. split; reflexivity.
Qed.

(** ** The volume *)

(** [float(n)] is exact on the volume range. *)
Lemma py_float_of_int_small (n : Z) :
  0 <= n <= 100 ->
  py_float_of_int n = Ok (PrimFloat.of_uint63 (Uint63.of_Z n)).
Proof.
  intros H.
  replace n with (Z.of_nat (Z.to_nat n)) by lia.
  assert (Hk : (Z.to_nat n <= 100)%nat) by lia.
  generalize dependent (Z.to_nat n). clear. intros k Hk.
  do 101 (destruct k as [|k]; [vm_compute; reflexivity |]).
  lia.
Qed.

(** C7: for a cached volume in the range 0 to 100 the [volume_level]
    property is that volume divided by 100.0, and a response without a
    volume key caches 0, so the level is 0.0. *)
Theorem volume_level_is_volume_over_100 (self : ItunesDevice.t) (x : float) :
  volume_number (ItunesDevice.current_volume self) x ->
  ItunesDevice.volume_level self = Ret (x / 100)%float /\
  (forall other d,
     d !! "volume" = None ->
     exists self',
       ItunesDevice.update_state other (PyDict d) = Ret self' /\
       ItunesDevice.current_volume self' = PyInt 0 /\
       ItunesDevice.volume_level self' = Ret 0%float).
Proof.
  intros Hv. split.
  - unfold ItunesDevice.volume_level.
    destruct Hv as [n Hn | f H0 H1 | b].
    + by rewrite (py_float_of_int_small n Hn).
    + reflexivity.
    + reflexivity.
  - intros other d Hd. eexists. split; [reflexivity |].
    unfold ItunesDevice.volume_level. simpl.
    unfold dict_get. rewrite Hd. split; reflexivity.
Qed.

Lemma volume_level_half :
  volume_number (ItunesDevice.current_volume playing_song_a) 50 /\
  ItunesDevice.volume_level playing_song_a = Ret 0.5%float /\
  exists self',
    ItunesDevice.update_state playing_song_a
      (PyDict {[ "player_state" := PyStr "stopped" ]}) = Ret self' /\
    ItunesDevice.current_volume self' = PyInt 0 /\
    ItunesDevice.volume_level self' = Ret 0%float.
Proof.
  assert (Hv : volume_number (ItunesDevice.current_volume playing_song_a) 50)
    by (apply (vn_int 50); lia).
  split; [exact Hv |].
  destruct (volume_level_is_volume_over_100 playing_song_a 50 Hv) as [Hl Hd].
  split; [exact Hl |].
  exact (Hd playing_song_a {[ "player_state" := PyStr "stopped" ]} eq_refl).
Defined.

(** ** Binary64 products on the unit interval

    The product [v * 100] of a float [v] between 0 and 1 is a zero or a
    finite non-negative float: the rounding of the exact product cannot
    overflow. *)

Lemma digits2_pos_le (p : positive) (k : Z) :
  Z.pos p < 2 ^ k -> Z.pos (digits2_pos p) <= k.
Proof.
  revert k. induction p as [p IH | p IH |]; intros k H; simpl.
  - assert (Hk : 0 < k).
    { destruct (Z.lt_ge_cases 0 k) as [|Hk]; [assumption |].
      destruct (Z.eq_dec k 0) as [-> | Hne]; [simpl in H; lia |].
      rewrite Z.pow_neg_r in H by lia. lia. }
    replace k with (Z.succ (k - 1)) in H by lia.
    rewrite Z.pow_succ_r in H by lia.
    specialize (IH (k - 1) ltac:(lia)). lia.
  - assert (Hk : 0 < k).
    { destruct (Z.lt_ge_cases 0 k) as [|Hk]; [assumption |].
      destruct (Z.eq_dec k 0) as [-> | Hne]; [simpl in H; lia |].
      rewrite Z.pow_neg_r in H by lia. lia. }
    replace k with (Z.succ (k - 1)) in H by lia.
    rewrite Z.pow_succ_r in H by lia.
    specialize (IH (k - 1) ltac:(lia)). lia.
  - destruct (Z.lt_ge_cases 0 k) as [|Hk]; [lia |].
    destruct (Z.eq_dec k 0) as [-> | Hne]; [simpl in H; lia |].
    rewrite Z.pow_neg_r in H by lia. lia.
Qed.

Lemma digits2_pos_gt (p : positive) : Z.pos p < 2 ^ Z.pos (digits2_pos p).
Proof.
  induction p as [p IH | p IH |]; simpl digits2_pos.
  - rewrite Pos2Z.inj_succ, Z.pow_succ_r by lia. lia.
  - rewrite Pos2Z.inj_succ, Z.pow_succ_r by lia. lia.
  - simpl. lia.
Qed.

Lemma Zdigits2_le (m k : Z) : 0 <= k -> 0 <= m < 2 ^ k -> Zdigits2 m <= k.
Proof.
  intros Hk [H0 H]. destruct m as [| p | p]; simpl; [lia | | lia].
  by apply digits2_pos_le.
Qed.

Lemma shr_1_shrinks (mrs : shr_record) :
  0 <= shr_m mrs -> 0 <= shr_m (shr_1 mrs) <= shr_m mrs.
Proof.
  destruct mrs as [m r s]. destruct m as [| [p | p |] | p]; simpl; lia.
Qed.

Lemma iter_shr_1_shrinks (p : positive) (mrs : shr_record) :
  0 <= shr_m mrs -> 0 <= shr_m (SpecFloat.iter_pos shr_1 p mrs) <= shr_m mrs.
Proof.
  revert mrs. induction p as [p IH | p IH |]; intros mrs H; simpl.
  - pose proof (shr_1_shrinks mrs H) as H1.
    pose proof (IH (shr_1 mrs) ltac:(lia)) as H2.
    pose proof (IH (SpecFloat.iter_pos shr_1 p (shr_1 mrs)) ltac:(lia)). lia.
  - pose proof (IH mrs H) as H1.
    pose proof (IH (SpecFloat.iter_pos shr_1 p mrs) ltac:(lia)). lia.
  - by apply shr_1_shrinks.
Qed.

Lemma shr_fexp_bounds (m e : Z) (l : location) (k : Z) :
  0 <= k -> 0 <= m < 2 ^ k ->
  0 <= shr_m (fst (shr_fexp prec emax m e l)) <= m /\
  snd (shr_fexp prec emax m e l) <= Z.max e (Z.max (k + e - 53) (-1074)).
Proof.
  intros Hk Hm.
  pose proof (Zdigits2_le m k Hk Hm) as Hd.
  assert (Hr : shr_m (shr_record_of_loc m l) = m) by (by destruct l as [| []]).
  unfold shr_fexp, shr, fexp, emin, prec, emax.
  generalize dependent (Zdigits2 m). intros d Hd.
  destruct (Z.max (d + e - 53) (3 - 1024 - 53) - e) as [| p | p] eqn:Hn;
    cbn [fst snd].
  - rewrite Hr. lia.
  - pose proof (iter_shr_1_shrinks p (shr_record_of_loc m l) ltac:(lia)) as Hi.
    rewrite Hr in Hi. lia.
  - rewrite Hr. lia.
Qed.

Lemma round_nearest_even_bounds (m : Z) (l : location) :
  0 <= m -> m <= round_nearest_even m l <= m + 1.
Proof.
  intros H. destruct l as [| []]; simpl; try lia.
  destruct (Z.even m); lia.
Qed.

(** Counting the steps of an iteration. *)
Lemma iter_pos_invariant {A : Type} (f : A -> A) (Q : Z -> A -> Prop) :
  (forall k x, 0 <= k -> Q k x -> Q (k + 1) (f x)) ->
  forall p k x, 0 <= k -> Q k x -> Q (k + Z.pos p) (SpecFloat.iter_pos f p x).
Proof.
  intros Hstep. induction p as [p IH | p IH |]; intros k x Hk HQ; simpl.
  - replace (k + Z.pos p~1) with (k + 1 + Z.pos p + Z.pos p) by lia.
    apply IH; [lia |]. apply IH; [lia |]. by apply Hstep.
  - replace (k + Z.pos p~0) with (k + Z.pos p + Z.pos p) by lia.
    apply IH; [lia |]. by apply IH.
  - by apply Hstep.
Qed.

Lemma shr_1_shifted (m k : Z) (mrs : shr_record) :
  0 <= m -> 0 <= k -> shifted m k mrs -> shifted m (k + 1) (shr_1 mrs).
Proof.
  intros Hm Hk [Hq Hr].
  assert (Hp : 0 < 2 ^ k) by (apply Z.pow_pos_nonneg; lia).
  assert (Hpow : 2 ^ (k + 1) = 2 ^ k * 2) by (rewrite Z.pow_add_r; lia).
  assert (Hq0 : 0 <= m / 2 ^ k) by (apply Z.div_pos; lia).
  assert (Hdiv : m / 2 ^ (k + 1) = m / 2 ^ k / 2)
    by (rewrite Hpow, Z.div_div; lia).
  assert (Hmod : m mod 2 ^ (k + 1) = 0 ->
                 m mod 2 ^ k = 0 /\ (m / 2 ^ k) mod 2 = 0).
  { rewrite Hpow. rewrite Z.rem_mul_r by lia. 
    pose proof (Z.mod_pos_bound m (2 ^ k) Hp).
    pose proof (Z.mod_pos_bound (m / 2 ^ k) 2 ltac:(lia)). nia. }
  destruct mrs as [q r s]. simpl in Hq, Hr. subst q.
  unfold shifted. rewrite Hdiv.
  destruct (m / 2 ^ k) as [| [p | p |] | p] eqn:Hv; simpl shr_1; simpl shr_m;
    simpl shr_r; simpl shr_s; try lia.
  - split; [reflexivity |]. intros H0. destruct (Hmod H0) as [Ha _].
    destruct (Hr Ha) as [-> ->]. auto.
  - split.
    + rewrite Pos2Z.inj_xI. apply (Z.div_unique _ 2 _ 1); lia.
    + intros H0. destruct (Hmod H0) as [_ Hb].
      rewrite Pos2Z.inj_xI in Hb.
      replace (2 * Z.pos p + 1) with (1 + Z.pos p * 2) in Hb by lia.
      rewrite Z.mod_add in Hb by lia. discriminate Hb.
  - split.
    + rewrite Pos2Z.inj_xO. apply (Z.div_unique _ 2 _ 0); lia.
    + intros H0. destruct (Hmod H0) as [Ha _].
      destruct (Hr Ha) as [-> ->]. auto.
  - split; [reflexivity |]. intros H0. destruct (Hmod H0) as [_ Hb].
    discriminate Hb.
Qed.

Lemma shr_fexp_floor (m e : Z) :
  0 <= m ->
  e <= snd (shr_fexp prec emax m e loc_Exact) /\
  shifted m (snd (shr_fexp prec emax m e loc_Exact) - e)
            (fst (shr_fexp prec emax m e loc_Exact)).
Proof.
  intros Hm. unfold shr_fexp, shr.
  destruct (fexp prec emax (Zdigits2 m + e) - e) as [| p | p]; cbn [fst snd].
  - split; [lia |]. replace (e - e) with 0 by lia.
    unfold shifted. simpl. rewrite Z.div_1_r. auto.
  - split; [lia |]. replace (e + Z.pos p - e) with (0 + Z.pos p) by lia.
    apply (iter_pos_invariant shr_1 (shifted m)).
    + intros k x Hk. by apply shr_1_shifted.
    + lia.
    + unfold shifted. simpl. rewrite Z.div_1_r. auto.
  - split; [lia |]. replace (e - e) with 0 by lia.
    unfold shifted. simpl. rewrite Z.div_1_r. auto.
Qed.

(** Rounding a positive mantissa below [2^200] with an exponent that is
    not positive never overflows. *)
Lemma binary_round_aux_finite (s : bool) (mx : positive) (ex : Z) :
  Z.pos mx < 2 ^ 200 -> ex <= 0 ->
  binary_round_aux prec emax s (Z.pos mx) ex loc_Exact = S754_zero s \/
  exists m e, binary_round_aux prec emax s (Z.pos mx) ex loc_Exact
              = S754_finite s m e.
Proof.
  intros Hm He. unfold binary_round_aux.
  pose proof (shr_fexp_bounds (Z.pos mx) ex loc_Exact 200 ltac:(lia) ltac:(lia))
    as [Hm1 He1].
  destruct (shr_fexp prec emax (Z.pos mx) ex loc_Exact) as [mrs1 e1].
  simpl in Hm1, He1.
  pose proof (round_nearest_even_bounds (shr_m mrs1) (loc_of_shr_record mrs1)
                ltac:(lia)) as Hr.
  set (m2 := round_nearest_even (shr_m mrs1) (loc_of_shr_record mrs1)) in *.
  assert (Hm2 : 0 <= m2 < 2 ^ 201).
  { change (2 ^ 201) with (2 * 2 ^ 200). lia. }
  pose proof (shr_fexp_bounds m2 e1 loc_Exact 201 ltac:(lia) Hm2) as [Hm3 He3].
  destruct (shr_fexp prec emax m2 e1 loc_Exact) as [mrs2 e2].
  simpl in Hm3, He3.
  destruct (shr_m mrs2) as [| p | p]; [by left | | lia].
  right. assert (Hle : (e2 <=? emax - prec) = true).
  { apply Z.leb_le. unfold emax, prec. lia. }
  rewrite Hle. eauto.
Qed.

Lemma pos_iter_xO (m d : positive) :
  Z.pos (Pos.iter xO m d) = Z.pos m * 2 ^ Z.pos d.
Proof.
  induction d as [| d IH] using Pos.peano_ind.
  - simpl. lia.
  - rewrite Pos.iter_succ, Pos2Z.inj_xO, IH, Pos2Z.inj_succ.
    rewrite Z.pow_succ_r by lia. lia.
Qed.

(** Rounding a mantissa below [2^k] with [k + ex <= 1023] and
    [ex <= 971] does not overflow. *)
Lemma binary_round_aux_in_range (s : bool) (mx : positive) (ex k : Z) :
  0 <= k -> Z.pos mx < 2 ^ k -> k + ex <= 1023 -> ex <= 971 ->
  binary_round_aux prec emax s (Z.pos mx) ex loc_Exact = S754_zero s \/
  exists m e, binary_round_aux prec emax s (Z.pos mx) ex loc_Exact
              = S754_finite s m e.
Proof.
  intros Hk Hm Hke Hex. unfold binary_round_aux.
  pose proof (shr_fexp_floor (Z.pos mx) ex ltac:(lia)) as [Hle1 [Hq1 Hr1]].
  pose proof (shr_fexp_bounds (Z.pos mx) ex loc_Exact k Hk ltac:(lia))
    as [Hm1 He1].
  destruct (shr_fexp prec emax (Z.pos mx) ex loc_Exact) as [mrs1 e1] eqn:Hs1.
  cbn [fst snd] in *.
  set (m2 := round_nearest_even (shr_m mrs1) (loc_of_shr_record mrs1)).
  pose proof (round_nearest_even_bounds (shr_m mrs1) (loc_of_shr_record mrs1)
                ltac:(lia)) as Hr. fold m2 in Hr.
  (* either nothing was shifted out, or the quotient has at most 53 bits *)
  assert (Hcase : (e1 = ex /\ m2 = Z.pos mx /\ Z.pos mx < 2 ^ 53) \/
                  (e1 <= 970 /\ 0 <= m2 <= 2 ^ 53)).
  { unfold shr_fexp, shr in Hs1.
    pose proof (digits2_pos_gt mx) as Hg.
    pose proof (digits2_pos_le mx k Hm) as Hd.
    unfold Zdigits2, fexp, emin, prec, emax in Hs1.
    destruct (Z.max (Z.pos (digits2_pos mx) + ex - 53) (3 - 1024 - 53) - ex)
      as [| p | p] eqn:Hn.
    - left. injection Hs1 as <- <-. unfold m2. simpl.
      split; [reflexivity |]. split; [reflexivity |].
      eapply Z.lt_le_trans; [exact Hg |]. apply Z.pow_le_mono_r; lia.
    - right. injection Hs1 as Hmrs He. split; [lia |].
      assert (Hn1 : e1 - ex = Z.pos p) by lia.
      rewrite Hn1 in Hq1.
      assert (Hp : 0 < 2 ^ Z.pos p) by (apply Z.pow_pos_nonneg; lia).
      assert (Hlt : shr_m mrs1 < 2 ^ 53).
      { rewrite Hq1. apply Z.div_lt_upper_bound; [lia |].
        rewrite <- Z.pow_add_r by lia.
        eapply Z.lt_le_trans; [exact Hg |]. apply Z.pow_le_mono_r; lia. }
      lia.
    - left. injection Hs1 as <- <-. unfold m2. simpl.
      split; [reflexivity |]. split; [reflexivity |].
      eapply Z.lt_le_trans; [exact Hg |]. apply Z.pow_le_mono_r; lia. }
  assert (He2 : snd (shr_fexp prec emax m2 e1 loc_Exact) <= 971 /\
                0 <= shr_m (fst (shr_fexp prec emax m2 e1 loc_Exact))).
  { destruct Hcase as [(-> & Hm2 & Hlt) | (He970 & Hm2)].
    - pose proof (shr_fexp_bounds m2 ex loc_Exact 53 ltac:(lia) ltac:(lia))
        as [Hb1 Hb2]. lia.
    - assert (Hlt : 0 <= m2 < 2 ^ 54).
      { change (2 ^ 54) with (2 * 2 ^ 53). lia. }
      pose proof (shr_fexp_bounds m2 e1 loc_Exact 54 ltac:(lia) Hlt)
        as [Hb1 Hb2]. lia. }
  destruct (shr_fexp prec emax m2 e1 loc_Exact) as [mrs2 e2].
  cbn [fst snd] in He2. destruct He2 as [He2 Hm3].
  destruct (shr_m mrs2) as [| p | p]; [by left | | lia].
  right. assert (Hle : (e2 <=? emax - prec) = true).
  { apply Z.leb_le. unfold emax, prec. lia. }
  rewrite Hle. eauto.
Qed.

(** [float(n)] is defined for every integer of magnitude below
    [2^1023]. *)
Lemma py_float_of_int_in_range (n : Z) :
  Z.abs n < 2 ^ 1023 -> exists f, py_float_of_int n = Ok f.
Proof.
  intros Hn. unfold py_float_of_int.
  assert (Hround : forall s m,
            Z.pos m < 2 ^ 1023 ->
            binary_round prec emax s m 0 = S754_zero s \/
            exists m' e', binary_round prec emax s m 0 = S754_finite s m' e').
  { intros s m Hm. unfold binary_round, shl_align.
    pose proof (digits2_pos_le m 1023 Hm) as Hd.
    unfold fexp, emin, prec, emax.
    destruct (Z.max (Z.pos (digits2_pos m) + 0 - 53) (3 - 1024 - 53) - 0)
      as [| p | p] eqn:Hsh.
    - apply (binary_round_aux_in_range s m 0 1023); lia.
    - apply (binary_round_aux_in_range s m 0 1023); lia.
    - apply (binary_round_aux_in_range s (Pos.iter xO m p) _ (1023 + Z.pos p)).
      + lia.
      + rewrite pos_iter_xO, Z.pow_add_r by lia.
        assert (0 < 2 ^ Z.pos p) by (apply Z.pow_pos_nonneg; lia). nia.
      + lia.
      + lia. }
  destruct n as [| m | m]; simpl binary_normalize.
  - eauto.
  - destruct (Hround false m ltac:(lia)) as [-> | (m' & e' & ->)]; eauto.
  - destruct (Hround true m ltac:(lia)) as [-> | (m' & e' & ->)]; eauto.
Qed.

Lemma unit_interval_float (v : float) :
  (0 <=? v)%float = true -> (v <=? 1)%float = true ->
  (exists s, Prim2SF v = S754_zero s) \/
  exists m e, Prim2SF v = S754_finite false m e /\ e <= -52 /\ Z.pos m < 2 ^ 53.
Proof.
  intros H0 H1. rewrite leb_spec in H0, H1.
  pose proof (Prim2SF_valid v) as Hv.
  change (Prim2SF 0) with (S754_zero false) in H0.
  change (Prim2SF 1) with (S754_finite false 4503599627370496 (-52)) in H1.
  destruct (Prim2SF v) as [s | s | | s m e].
  - left. eauto.
  - destruct s; discriminate.
  - discriminate.
  - right. destruct s; [discriminate |].
    exists m, e. split; [reflexivity |].
    unfold SFleb, SFcompare in H1.
    destruct (e ?= -52) eqn:Hc; try discriminate.
    + apply Z.compare_eq in Hc. split; [lia |].
      simpl in Hv. unfold bounded, canonical_mantissa in Hv.
      apply andb_prop in Hv as [Hv _]. apply Z.eqb_eq in Hv.
      unfold fexp, emin, prec, emax in Hv.
      pose proof (digits2_pos_gt m) as Hg.
      assert (Hd : Z.pos (digits2_pos m) <= 53) by lia.
      eapply Z.lt_le_trans; [exact Hg |].
      apply Z.pow_le_mono_r; lia.
    + rewrite Z.compare_lt_iff in Hc. split; [lia |].
      simpl in Hv. unfold bounded, canonical_mantissa in Hv.
      apply andb_prop in Hv as [Hv _]. apply Z.eqb_eq in Hv.
      unfold fexp, emin, prec, emax in Hv.
      pose proof (digits2_pos_gt m) as Hg.
      assert (Hd : Z.pos (digits2_pos m) <= 53) by lia.
      eapply Z.lt_le_trans; [exact Hg |].
      apply Z.pow_le_mono_r; lia.
Qed.

Lemma scaled_unit_interval (v : float) :
  (0 <=? v)%float = true -> (v <=? 1)%float = true ->
  (exists s, Prim2SF (v * 100)%float = S754_zero s) \/
  exists m e, Prim2SF (v * 100)%float = S754_finite false m e.
Proof.
  intros H0 H1. rewrite mul_spec.
  change (Prim2SF 100) with (S754_finite false 7036874417766400 (-46)).
  destruct (unit_interval_float v H0 H1) as [[s ->] | (m & e & -> & He & Hm)].
  - left. simpl. eauto.
  - unfold SF64mul, SFmul. simpl xorb.
    destruct (binary_round_aux_finite false (m * 7036874417766400) (e + -46))
      as [Hz | Hf].
    + rewrite Pos2Z.inj_mul.
      change (2 ^ 200) with (2 ^ 53 * 2 ^ 147).
      assert (Z.pos 7036874417766400 < 2 ^ 147) by (vm_compute; reflexivity).
      nia.
    + lia.
    + left. eauto.
    + right. exact Hf.
Qed.

(** [int(x)] is the integer part of [x], toward zero: for a finite
    [x] of sign [s], mantissa [m] and exponent [e], the magnitude of the
    result is the floor of [m * 2^e] and its sign is that of [x]. *)
Lemma py_int_of_float_truncates (x : float) (L : Z) s m e :
  Prim2SF x = S754_finite s m e ->
  py_int_of_float x = Ok L ->
  Z.abs L * 2 ^ Z.max 0 (- e) <= Z.pos m * 2 ^ Z.max 0 e
    < (Z.abs L + 1) * 2 ^ Z.max 0 (- e) /\
  (if s then L <= 0 else 0 <= L).
Proof.
  intros Hx HL. unfold py_int_of_float in HL. rewrite Hx in HL.
  injection HL as <-.
  assert (Hmag : 0 <= Z.shiftl (Z.pos m) e) by (apply Z.shiftl_nonneg; lia).
  assert (Habs : Z.abs (if s then - Z.shiftl (Z.pos m) e else Z.shiftl (Z.pos m) e)
                 = Z.shiftl (Z.pos m) e) by (destruct s; lia).
  rewrite Habs. split; [| destruct s; lia].
  destruct (Z.le_gt_cases 0 e) as [He | He].
  - rewrite Z.shiftl_mul_pow2 by lia.
    replace (Z.max 0 (- e)) with 0 by lia.
    replace (Z.max 0 e) with e by lia.
    change (2 ^ 0) with 1. lia.
  - rewrite Z.shiftl_div_pow2 by lia.
    replace (Z.max 0 (- e)) with (- e) by lia.
    replace (Z.max 0 e) with 0 by lia.
    change (2 ^ 0) with 1.
    assert (Hp : 0 < 2 ^ (- e)) by (apply Z.pow_pos_nonneg; lia).
    pose proof (Z.mul_div_le (Z.pos m) _ Hp).
    pose proof (Z.mul_succ_div_gt (Z.pos m) _ Hp).
    lia.
Qed.

(** A level on which [int] succeeds is what goes on the wire. *)
Lemma set_volume_level_sends (self : ItunesDevice.t) (v : float) (L : Z) :
  py_int_of_float (v * 100)%float = Ok L ->
  pending (ItunesDevice.set_volume_level self v) =
    Some (volume_request (ItunesDevice.client self) L) /\
  (forall o,
     answer o (ItunesDevice.set_volume_level self v) =
     (response <- answer o (Itunes.set_volume (ItunesDevice.client self) (PyInt L)) ;;
      ItunesDevice.update_state self response)).
Proof.
  intros HL. unfold ItunesDevice.set_volume_level. rewrite HL.
  split; reflexivity.
Qed.

(** A level on which [int] fails is never sent. *)
Lemma set_volume_level_raises (self : ItunesDevice.t) (v : float) (e : exn) :
  py_int_of_float (v * 100)%float = Err e ->
  ItunesDevice.set_volume_level self v = Raise e.
Proof.
  intros HL. unfold ItunesDevice.set_volume_level. by rewrite HL.
Qed.

(** C6, as the code has it: for every [v] from 0.0 to 1.0,
    [set_volume_level(v)] sends to the volume endpoint the integer part
    of the binary64 product [v * 100], [int] truncating toward zero, and
    then merges the response. *)
Theorem set_volume_level_truncates (self : ItunesDevice.t) (v : float) :
  (0 <=? v)%float = true -> (v <=? 1)%float = true ->
  exists L,
    py_int_of_float (v * 100)%float = Ok L /\
    0 <= L /\
    pending (ItunesDevice.set_volume_level self v) =
      Some (volume_request (ItunesDevice.client self) L) /\
    (forall o,
       answer o (ItunesDevice.set_volume_level self v) =
       (response <- answer o (Itunes.set_volume (ItunesDevice.client self) (PyInt L)) ;;
        ItunesDevice.update_state self response)) /\
    match Prim2SF (v * 100)%float with
    | S754_finite _ m e =>
        L * 2 ^ Z.max 0 (- e) <= Z.pos m * 2 ^ Z.max 0 e
          < (L + 1) * 2 ^ Z.max 0 (- e)
    | _ => L = 0
    end.
Proof.
  intros H0 H1.
  destruct (scaled_unit_interval v H0 H1) as [[s Hz] | (m & e & Hf)].
  - exists 0.
    assert (HL : py_int_of_float (v * 100)%float = Ok 0)
      by (unfold py_int_of_float; by rewrite Hz).
    destruct (set_volume_level_sends self v 0 HL) as [Hp Ha].
    rewrite Hz. repeat split; try assumption; lia.
  - destruct (py_int_of_float (v * 100)%float) as [L | ex] eqn:HL;
      [| unfold py_int_of_float in HL; rewrite Hf in HL; discriminate].
    exists L.
    destruct (py_int_of_float_truncates _ _ _ _ _ Hf HL) as [Hb Hs].
    destruct (set_volume_level_sends self v L HL) as [Hp Ha].
    rewrite Hf. replace (Z.abs L) with L in Hb by lia.
    repeat split; try assumption; lia.
Qed.

(** The scenario of the specification: a level of 0.73 is sent as 73. *)
Lemma set_volume_level_073 :
  (0 <=? 0.73)%float = true /\ (0.73 <=? 1)%float = true /\
  pending (ItunesDevice.set_volume_level kitchen 0.73) =
    Some (volume_request (ItunesDevice.client kitchen) 73).
Proof.
  split; [reflexivity |]. split; [reflexivity |].
  destruct (set_volume_level_truncates kitchen 0.73 eq_refl eq_refl)
    as (L & HL & _ & Hp & _).
  assert (HL73 : L = 73) by (vm_compute in HL; congruence).
  rewrite HL73 in Hp. exact Hp.
Defined.

(** C6, as stated, fails: 0.9375 lies in the range, [0.9375 * 100] is
    93.75 exactly, which rounds to 94, and the level that is sent is 93. *)
Lemma set_volume_level_does_not_round :
  (0 <=? 0.9375)%float = true /\ (0.9375 <=? 1)%float = true /\
  (0.9375 * 100)%float = 93.75%float /\
  py_round_of_float (0.9375 * 100)%float = Ok 94 /\
  pending (ItunesDevice.set_volume_level kitchen 0.9375) =
    Some (volume_request (ItunesDevice.client kitchen) 93) /\
  pending (ItunesDevice.set_volume_level kitchen 0.9375) <>
    Some (volume_request (ItunesDevice.client kitchen) 94).
Proof.
  repeat (split; [reflexivity |]).
  intros H. apply (f_equal level_of) in H. vm_compute in H. discriminate.
Qed.

Example round_examples :
  py_round_of_float 0.5 = Ok 0 /\ py_round_of_float 1.5 = Ok 2 /\
  py_round_of_float 2.5 = Ok 2 /\ py_round_of_float (-93.75) = Ok (-94) /\
  py_round_of_float 73 = Ok 73 /\ py_round_of_float 0.4 = Ok 0.
Proof. repeat split. Qed.

(** ** The cached volume after an operation *)

(** An operation that completes has merged a mapping: one of the two
    sentinels or the decoded body of the response. *)
Lemma perform_completes op self o self' :
  answer o (perform op self) = Ret self' ->
  exists d,
    ItunesDevice.update_state self (PyDict d) = Ret self' /\
    (PyDict d = Itunes.offline_sentinel \/ PyDict d = Itunes.error_sentinel \/
     exists r, o = Returned r /\ decoded r = Some (PyDict d)).
Proof.
  intros H.
  assert (Hreq : forall method path params,
            known_method method ->
            answer o (response <- Itunes._request (ItunesDevice.client self)
                                    method path params ;;
                      ItunesDevice.update_state self response) = Ret self' ->
            exists d,
              ItunesDevice.update_state self (PyDict d) = Ret self' /\
              (PyDict d = Itunes.offline_sentinel \/
               PyDict d = Itunes.error_sentinel \/
               exists r, o = Returned r /\ decoded r = Some (PyDict d))).
  { clear H. intros method path params Hm H.
    destruct o as [[st [body |]] | e].
    - assert (Hb : answer (Returned {| status_code := st; decoded := Some body |})
                     (response <- Itunes._request (ItunesDevice.client self)
                                    method path params ;;
                      ItunesDevice.update_state self response)
                   = ItunesDevice.update_state self body)
        by (known_method_cases Hm; reflexivity).
      rewrite Hb in H. destruct body; try discriminate H.
      exists d. split; [exact H |]. right. right. eexists. split; reflexivity.
    - exfalso. known_method_cases Hm; discriminate H.
    - destruct e; known_method_cases Hm; try discriminate H;
        eexists; (split; [exact H |]); auto. }
  destruct op; simpl in H.
  - apply (Hreq "GET" "/now_playing" PyNone); [unfold known_method; auto | exact H].
  - unfold ItunesDevice.set_volume_level in H.
    destruct (py_int_of_float (volume * 100)) as [level | e]; [| discriminate H].
    apply (Hreq "PUT" "/volume" (PyDict {[ "level" := PyInt level ]}));
      [unfold known_method; auto | exact H].
  - apply (Hreq "PUT" "/mute" (PyDict {[ "muted" := PyBool mute ]}));
      [unfold known_method; auto | exact H].
  - apply (Hreq "PUT" "/play" PyNone); [unfold known_method; auto | exact H].
  - apply (Hreq "PUT" "/pause" PyNone); [unfold known_method; auto | exact H].
  - apply (Hreq "PUT" "/next" PyNone); [unfold known_method; auto | exact H].
  - apply (Hreq "PUT" "/previous" PyNone); [unfold known_method; auto | exact H].
Qed.

Lemma integer_volume_level (self : ItunesDevice.t) (n : Z) :
  ItunesDevice.current_volume self = PyInt n -> caches_integer_volume self n.
Proof.
  intros Hv. unfold caches_integer_volume, ItunesDevice.volume_level.
  rewrite Hv.
  split; [reflexivity |]. split; [discriminate |].
  assert (Hraise : forall e,
            (f <- lift (py_float_of_int n) ;; Ret (f / 100)%float) = Raise e ->
            e = OverflowError).
  { intros e. unfold py_float_of_int.
    destruct (binary_normalize prec emax n 0 false); simpl; congruence. }
  split.
  { intros H. by specialize (Hraise _ H). }
  split; [exact Hraise |]. split.
  - intros Hn. destruct (py_float_of_int_in_range n Hn) as [f Hf].
    exists f. split; [exact Hf |]. by rewrite Hf.
  - intros Hn. by rewrite (py_float_of_int_small n Hn).
Qed.

(** An answer with a volume makes every operation that reaches its call
    complete. *)
Lemma perform_merges op self o n :
  merged_volume o n ->
  pending (perform op self) <> None ->
  exists d,
    answer o (perform op self) = ItunesDevice.update_state self (PyDict d) /\
    dict_get d "volume" (PyInt 0) = PyInt n.
Proof.
  intros Ho Hp.
  assert (Hu : answer o (perform op self) = answer o (ItunesDevice.update self)).
  { destruct op; try reflexivity.
    cbn [perform] in Hp |- *. unfold ItunesDevice.set_volume_level in Hp |- *.
    destruct (py_int_of_float (volume * 100)); [reflexivity | done]. }
  rewrite Hu. clear Hu Hp.
  destruct Ho as [status d n Hd | status d Hd | e He].
  - exists d. split; [reflexivity |]. unfold dict_get. by rewrite Hd.
  - exists d. split; [reflexivity |]. unfold dict_get. by rewrite Hd.
  - destruct e; try discriminate He;
      (eexists; split; [reflexivity | reflexivity]).
Qed.

(** C10, as the code has it: on an answer whose volume is absent or an
    integer, construction and every adapter operation that reaches its
    call complete, and the cached volume is then that integer (0 when
    the key is absent), never None; reading [volume_level] never divides
    None, and returns the level for every integer that converts to a
    float, which every integer of magnitude below [2^1023] does. *)
Theorem cached_volume_after_operation (o : call_outcome) (n : Z) :
  merged_volume o n ->
  (forall op self,
     pending (perform op self) <> None ->
     exists self',
       answer o (perform op self) = Ret self' /\
       caches_integer_volume self' n) /\
  (forall name host port,
     exists self',
       answer o (ItunesDevice.__init__ name host port) = Ret self' /\
       caches_integer_volume self' n) /\
  (forall op self self',
     answer o (perform op self) = Ret self' ->
     caches_integer_volume self' n).
Proof.
  intros Ho.
  assert (Hop : forall op self,
            pending (perform op self) <> None ->
            exists self',
              answer o (perform op self) = Ret self' /\
              caches_integer_volume self' n).
  { intros op self Hp.
    destruct (perform_merges op self o n Ho Hp) as (d & Ha & Hd).
    rewrite Ha. eexists. split; [reflexivity |].
    apply integer_volume_level. exact Hd. }
  split; [exact Hop |]. split.
  - intros name host port.
    apply (Hop op_update). discriminate.
  - intros op self self' H.
    assert (Hp : pending (perform op self) <> None).
    { destruct op; try discriminate.
      cbn [perform] in H |- *. unfold ItunesDevice.set_volume_level in H |- *.
      destruct (py_int_of_float (volume * 100)); [discriminate | discriminate H]. }
    destruct (Hop op self Hp) as (self'' & Ha & Hc).
    rewrite H in Ha. by injection Ha as <-.
Qed.

Lemma cached_volume_after_update :
  merged_volume
    (json_response 200
       (PyDict {[ "player_state" := PyStr "playing"; "volume" := PyInt 50;
                  "name" := PyStr "Song A" ]})) 50 /\
  answer (json_response 200
            (PyDict {[ "player_state" := PyStr "playing"; "volume" := PyInt 50;
                       "name" := PyStr "Song A" ]}))
         (perform op_update kitchen) = Ret playing_song_a /\
  caches_integer_volume playing_song_a 50.
Proof.
  assert (Ho : merged_volume
    (json_response 200
       (PyDict {[ "player_state" := PyStr "playing"; "volume" := PyInt 50;
                  "name" := PyStr "Song A" ]})) 50).
  { apply mv_present. reflexivity. }
  split; [exact Ho |]. split; [reflexivity |].
  exact (proj2 (proj2 (cached_volume_after_operation _ 50 Ho)) op_update kitchen
           playing_song_a eq_refl).
Defined.

(** C10, as stated, fails twice.  A response whose volume is null makes
    the cached volume None, at construction and on update, and reading
    [volume_level] then raises [TypeError].  And an integer volume can be
    too large for a float: with volume [2^1024] the cached volume is that
    integer and reading [volume_level] raises [OverflowError]. *)
Lemma volume_level_not_total :
  (exists self',
     answer (json_response 200
               (PyDict {[ "player_state" := PyStr "playing";
                          "volume" := PyNone ]}))
            (ItunesDevice.__init__ "iTunes" "http://192.168.1.16" 8181)
       = Ret self' /\
     answer (json_response 200
               (PyDict {[ "player_state" := PyStr "playing";
                          "volume" := PyNone ]}))
            (ItunesDevice.update kitchen) = Ret self' /\
     ItunesDevice.current_volume self' = PyNone /\
     ItunesDevice.volume_level self' = Raise TypeError) /\
  (exists self',
     answer (json_response 200
               (PyDict {[ "player_state" := PyStr "playing";
                          "volume" := PyInt (2 ^ 1024) ]}))
            (ItunesDevice.update kitchen) = Ret self' /\
     ItunesDevice.current_volume self' = PyInt (2 ^ 1024) /\
     ItunesDevice.volume_level self' = Raise OverflowError).
Proof.
  split.
  - eexists. repeat split.
  - eexists. split; [reflexivity |]. split; [reflexivity |].
    vm_compute. reflexivity.
Qed.

(** * Further properties of the module *)

(** ** One request per operation *)

(** X1: every adapter operation makes at most one call into requests,
    on the endpoint of its own under the client's base URL, and none
    after that call is answered, whatever the answer.  It makes exactly
    one, except [set_volume_level] on a level for which [int] raises (nan
    or an infinity): that one raises before any call, and for a level
    from 0.0 to 1.0 it does make its call. *)
Theorem each_operation_makes_at_most_one_call (self : ItunesDevice.t) :
  pending (ItunesDevice.update self) =
    Some (requests_get
            (Itunes._base_url (ItunesDevice.client self) +:+ "/now_playing")) /\
  (forall mute,
     pending (ItunesDevice.mute_volume self mute) =
       Some (requests_put
               (Itunes._base_url (ItunesDevice.client self) +:+ "/mute")
               (PyDict {[ "muted" := PyBool mute ]}))) /\
  pending (ItunesDevice.media_play self) =
    Some (requests_put
            (Itunes._base_url (ItunesDevice.client self) +:+ "/play") PyNone) /\
  pending (ItunesDevice.media_pause self) =
    Some (requests_put
            (Itunes._base_url (ItunesDevice.client self) +:+ "/pause") PyNone) /\
  pending (ItunesDevice.media_next_track self) =
    Some (requests_put
            (Itunes._base_url (ItunesDevice.client self) +:+ "/next") PyNone) /\
  pending (ItunesDevice.media_previous_track self) =
    Some (requests_put
            (Itunes._base_url (ItunesDevice.client self) +:+ "/previous") PyNone) /\
  (forall volume,
     match py_int_of_float (volume * 100)%float with
     | Ok level =>
         pending (ItunesDevice.set_volume_level self volume) =
           Some (requests_put
                   (Itunes._base_url (ItunesDevice.client self) +:+ "/volume")
                   (PyDict {[ "level" := PyInt level ]}))
     | Err e => ItunesDevice.set_volume_level self volume = Raise e
     end) /\
  ItunesDevice.set_volume_level self nan = Raise ValueError /\
  ItunesDevice.set_volume_level self infinity = Raise OverflowError /\
  (forall volume,
     (0 <=? volume)%float = true -> (volume <=? 1)%float = true ->
     pending (ItunesDevice.set_volume_level self volume) <> None) /\
  (forall op o, pending (answer o (perform op self)) = None).
Proof.
  repeat (split; [reflexivity |]).
  split.
  { intros volume. unfold ItunesDevice.set_volume_level.
    destruct (py_int_of_float (volume * 100)); reflexivity. }
  split; [reflexivity |]. split; [reflexivity |].
  split.
  { intros volume H0 H1.
    assert (HL : exists L, py_int_of_float (volume * 100)%float = Ok L).
    { unfold py_int_of_float.
      destruct (scaled_unit_interval volume H0 H1) as [[s ->] | (m & e & ->)];
        eauto. }
    destruct HL as [L HL].
    rewrite (proj1 (set_volume_level_sends self volume L HL)). discriminate. }
  intros op o.
  assert (Hreq : forall method path params,
            known_method method ->
            pending (answer o
              (response <- Itunes._request (ItunesDevice.client self)
                             method path params ;;
               ItunesDevice.update_state self response)) = None).
  { intros method path params Hm.
    destruct o as [[st [body |]] | e].
    - known_method_cases Hm; destruct body; reflexivity.
    - known_method_cases Hm; reflexivity.
    - known_method_cases Hm; destruct e; reflexivity. }
  destruct op; cbn [perform].
  - apply (Hreq "GET" "/now_playing" PyNone). unfold known_method. auto.
  - unfold ItunesDevice.set_volume_level.
    destruct (py_int_of_float (volume * 100)) as [level | e]; [| reflexivity].
    apply (Hreq "PUT" "/volume" (PyDict {[ "level" := PyInt level ]})).
    unfold known_method. auto.
  - apply (Hreq "PUT" "/mute" (PyDict {[ "muted" := PyBool mute ]})).
    unfold known_method. auto.
  - apply (Hreq "PUT" "/play" PyNone). unfold known_method. auto.
  - apply (Hreq "PUT" "/pause" PyNone). unfold known_method. auto.
  - apply (Hreq "PUT" "/next" PyNone). unfold known_method. auto.
  - apply (Hreq "PUT" "/previous" PyNone). unfold known_method. auto.
Qed.

(** ** What leaves [_request] *)

(** X2: no exception of the requests hierarchy leaves [_request], for
    any verb, path, body and server: what it raises, if anything, is of
    another class. *)
Theorem request_contains_requests_exceptions
    (c : Itunes.t) (method path : string) (params : py_value)
    (net : requests_call -> call_outcome) (e : exn) :
  run net (Itunes._request c method path params) = Err e ->
  is_RequestException e = false.
Proof.
  intros H.
  assert (Hcall : forall rc,
            run net (try_except (response <- call rc ;; Response_json response)
                       (Ret Itunes.error_sentinel) (Ret Itunes.offline_sentinel))
            = Err e -> is_RequestException e = false).
  { intros rc Hr. simpl in Hr.
    destruct (net rc) as [[st [body |]] | e']; simpl in Hr.
    - discriminate.
    - by injection Hr as <-.
    - destruct (is_HTTPError e') eqn:Hh; [discriminate |].
      destruct (is_RequestException e') eqn:Hq; [discriminate |].
      by injection Hr as <-. }
  unfold Itunes._request in H.
  destruct (bool_decide (method = "GET")); [by eapply Hcall |].
  destruct (bool_decide (method = "POST")); [by eapply Hcall |].
  destruct (bool_decide (method = "PUT")); [by eapply Hcall |].
  destruct (bool_decide (method = "DELETE")); [by eapply Hcall |].
  simpl in H. by injection H as <-.
Qed.

Lemma request_contains_on_garbage :
  run (fun _ => garbage_response 502)
      (Itunes._request (Itunes.__init__ "http://192.168.1.16" 8181)
                       "GET" "/now_playing" PyNone) = Err ValueError /\
  is_RequestException ValueError = false.
Proof.
  split; [reflexivity |].
  exact (request_contains_requests_exceptions
           (Itunes.__init__ "http://192.168.1.16" 8181) "GET" "/now_playing"
           PyNone (fun _ => garbage_response 502) ValueError eq_refl).
Defined.

(** X3: a verb other than GET, POST, PUT and DELETE makes no call and
    raises [UnboundLocalError], which is not turned into a sentinel; and
    POST goes out exactly as PUT does. *)
Theorem request_verbs (c : Itunes.t) (method path : string) (params : py_value) :
  (known_method method \/
   Itunes._request c method path params = Raise UnboundLocalError) /\
  (known_method method ->
   exists rc, pending (Itunes._request c method path params) = Some rc /\
              request_url rc = Itunes._base_url c +:+ path) /\
  Itunes._request c "POST" path params = Itunes._request c "PUT" path params.
Proof.
  split; [| split; [| reflexivity]].
  - unfold Itunes._request, known_method.
    destruct (decide (method = "GET")) as [-> | H1]; [auto |].
    destruct (decide (method = "POST")) as [-> | H2]; [auto |].
    destruct (decide (method = "PUT")) as [-> | H3]; [auto |].
    destruct (decide (method = "DELETE")) as [-> | H4]; [auto 6 |].
    right. by rewrite !bool_decide_eq_false_2.
  - intros Hm. known_method_cases Hm; eexists; split; reflexivity.
Qed.

(** X4: the status code of a response never changes what an operation
    does with it: two responses with the same body are merged alike. *)
Theorem status_code_ignored (op : adapter_op) (self : ItunesDevice.t)
    (status1 status2 : Z) (body : option py_value) :
  answer (Returned {| status_code := status1; decoded := body |})
         (perform op self) =
  answer (Returned {| status_code := status2; decoded := body |})
         (perform op self).
Proof.
  destruct op; try reflexivity.
  simpl. unfold ItunesDevice.set_volume_level.
  destruct (py_int_of_float (volume * 100)); reflexivity.
Qed.

(** ** Sessions *)

(** An operation only reads the configuration of the device: on two
    devices with the same client it does the same. *)
Lemma perform_reads_client (op : adapter_op) (self1 self2 : ItunesDevice.t) :
  ItunesDevice._name self1 = ItunesDevice._name self2 ->
  ItunesDevice._host self1 = ItunesDevice._host self2 ->
  ItunesDevice._port self1 = ItunesDevice._port self2 ->
  ItunesDevice.client self1 = ItunesDevice.client self2 ->
  perform op self1 = perform op self2.
Proof.
  intros Hn Hh Hp Hc.
  assert (Hu : ItunesDevice.update_state self1 = ItunesDevice.update_state self2).
  { unfold ItunesDevice.update_state. by rewrite Hn, Hh, Hp, Hc. }
  destruct op; simpl;
    unfold ItunesDevice.update, ItunesDevice.set_volume_level,
      ItunesDevice.mute_volume, ItunesDevice.media_play,
      ItunesDevice.media_pause, ItunesDevice.media_next_track,
      ItunesDevice.media_previous_track;
    by rewrite Hc, Hu.
Qed.

(** A completed operation leaves the configuration as it was. *)
Lemma perform_keeps_configuration op self o self' :
  answer o (perform op self) = Ret self' ->
  ItunesDevice._name self' = ItunesDevice._name self /\
  ItunesDevice._host self' = ItunesDevice._host self /\
  ItunesDevice._port self' = ItunesDevice._port self /\
  ItunesDevice.client self' = ItunesDevice.client self.
Proof.
  intros H.
  destruct (perform_completes op self o self' H) as (d & Hu & _).
  simpl in Hu. injection Hu as <-. repeat split.
Qed.

(** X5: the cache keeps no history.  When a session completes, the
    device it ends with is the one its last operation alone would have
    produced from the device the session started with. *)
Theorem session_depends_on_last_step
    (steps : list (adapter_op * call_outcome)) (op : adapter_op)
    (o : call_outcome) (self final : ItunesDevice.t) :
  session (steps ++ [(op, o)]) self = Ret final ->
  answer o (perform op self) = Ret final.
Proof.
  revert self. induction steps as [| [op1 o1] steps IH]; intros self H.
  - simpl in H.
    destruct (answer o (perform op self)) as [s | e | rc k]; simpl in H;
      [by rewrite H | discriminate | discriminate].
  - simpl in H.
    destruct (answer o1 (perform op1 self)) as [s1 | e | rc k] eqn:H1;
      simpl in H; [| discriminate | discriminate].
    destruct (perform_keeps_configuration _ _ _ _ H1) as (Hn & Hh & Hp & Hc).
    rewrite <- (perform_reads_client op s1 self Hn Hh Hp Hc).
    by apply IH.
Qed.

Lemma session_pause_then_update :
  session ([(op_media_pause, Failed Timeout)] ++ [(op_update, song_a_response)])
          kitchen = Ret playing_song_a /\
  answer song_a_response (perform op_update kitchen) = Ret playing_song_a.
Proof.
  split; [reflexivity |].
  exact (session_depends_on_last_step [(op_media_pause, Failed Timeout)]
           op_update song_a_response kitchen playing_song_a eq_refl).
Defined.

(** X6: through every session that completes, a device built by
    [__init__] keeps its name and a client on the configured host and
    port, so that each request it makes next goes to that base URL. *)
Theorem session_keeps_configuration
    (name host : string) (port : Z) (o0 : call_outcome)
    (steps : list (adapter_op * call_outcome))
    (self final : ItunesDevice.t) :
  answer o0 (ItunesDevice.__init__ name host port) = Ret self ->
  session steps self = Ret final ->
  ItunesDevice.name final = name /\
  ItunesDevice.client final = Itunes.__init__ host port /\
  (forall op rc,
     pending (perform op final) = Some rc ->
     exists path,
       request_url rc = ((host +:+ ":") +:+ py_str_of_int port) +:+ path).
Proof.
  intros Hinit Hs.
  assert (Hself : ItunesDevice._name self = name /\
                  ItunesDevice.client self = Itunes.__init__ host port).
  { destruct (perform_keeps_configuration op_update _ _ _ Hinit)
      as (Hn & _ & _ & Hc).
    split; assumption. }
  assert (Hfinal : ItunesDevice._name final = name /\
                   ItunesDevice.client final = Itunes.__init__ host port).
  { clear Hinit. revert self Hs Hself.
    induction steps as [| [op1 o1] steps IH]; intros self Hs Hself.
    - simpl in Hs. by injection Hs as <-.
    - simpl in Hs.
      destruct (answer o1 (perform op1 self)) as [s1 | e | rc k] eqn:H1;
        simpl in Hs; [| discriminate | discriminate].
      apply (IH s1 Hs).
      destruct (perform_keeps_configuration _ _ _ _ H1) as (Hn & _ & _ & Hc).
      destruct Hself as [Hn0 Hc0]. split; congruence. }
  destruct Hfinal as [Hn Hc]. split; [exact Hn |]. split; [exact Hc |].
  intros op rc Hp.
  destruct op; simpl in Hp;
    unfold ItunesDevice.update, ItunesDevice.set_volume_level,
      ItunesDevice.mute_volume, ItunesDevice.media_play,
      ItunesDevice.media_pause, ItunesDevice.media_next_track,
      ItunesDevice.media_previous_track in Hp;
    rewrite Hc in Hp;
    try (destruct (py_int_of_float (volume * 100)); [| discriminate Hp]);
    simpl in Hp; injection Hp as <-; eexists; reflexivity.
Qed.

Lemma session_keeps_configuration_kitchen :
  answer (Failed ConnectionError)
         (ItunesDevice.__init__ "iTunes" "http://192.168.1.16" 8181)
    = answer (Failed ConnectionError) (ItunesDevice.update kitchen) /\
  session [(op_update, song_a_response)]
    {| ItunesDevice._name := "iTunes";
       ItunesDevice._host := "http://192.168.1.16";
       ItunesDevice._port := 8181;
       ItunesDevice.client := Itunes.__init__ "http://192.168.1.16" 8181;
       ItunesDevice.current_volume := PyInt 0;
       ItunesDevice.muted := PyNone;
       ItunesDevice.current_title := PyNone;
       ItunesDevice.current_album := PyNone;
       ItunesDevice.current_artist := PyNone;
       ItunesDevice.current_playlist := PyNone;
       ItunesDevice.content_id := PyNone;
       ItunesDevice.player_state := PyStr "offline" |} = Ret playing_song_a /\
  ItunesDevice.name playing_song_a = "iTunes" /\
  ItunesDevice.client playing_song_a = Itunes.__init__ "http://192.168.1.16" 8181.
Proof.
  split; [reflexivity |]. split; [reflexivity |].
  destruct (session_keeps_configuration "iTunes" "http://192.168.1.16" 8181
              (Failed ConnectionError) [(op_update, song_a_response)]
              _ playing_song_a eq_refl eq_refl) as (Hn & Hc & _).
  split; assumption.
Defined.

(** ** A server that cannot be reached *)

(** X7: when the call of an operation fails with any exception of the
    requests hierarchy, the operation still completes, and the device
    then shows state error (for [HTTPError]) or offline (for the rest),
    no metadata, level 0.0 and the placeholder image. *)
Theorem transport_failure_degrades
    (op : adapter_op) (self : ItunesDevice.t) (e : exn) :
  is_RequestException e = true ->
  pending (perform op self) <> None ->
  exists self',
    answer (Failed e) (perform op self) = Ret self' /\
    ItunesDevice.state self' = (if is_HTTPError e then "error" else "offline") /\
    ItunesDevice.media_title self' = PyNone /\
    ItunesDevice.media_artist self' = PyNone /\
    ItunesDevice.media_album_name self' = PyNone /\
    ItunesDevice.media_content_id self' = PyNone /\
    ItunesDevice.is_volume_muted self' = PyNone /\
    ItunesDevice.volume_level self' = Ret 0%float /\
    ItunesDevice.media_image_url self' = Ret ItunesDevice.placeholder_image.
Proof.
  intros He Hp.
  destruct op; simpl in Hp |- *;
    try (unfold ItunesDevice.set_volume_level in Hp |- *;
         destruct (py_int_of_float (volume * 100)); [| done]);
    destruct e; try discriminate He;
    eexists; (split; [reflexivity |]); repeat split.
Qed.

Lemma transport_failure_degrades_timeout :
  is_RequestException Timeout = true /\
  pending (perform op_media_play playing_song_a) <> None /\
  exists self',
    answer (Failed Timeout) (perform op_media_play playing_song_a) = Ret self' /\
    ItunesDevice.state self' = "offline" /\
    ItunesDevice.media_title self' = PyNone.
Proof.
  split; [reflexivity |]. split; [discriminate |].
  destruct (transport_failure_degrades op_media_play playing_song_a Timeout
              eq_refl ltac:(discriminate))
    as (self' & Ha & Hs & Ht & _).
  exists self'. repeat split; assumption.
Defined.

(** ** What an operation can raise *)



(** ** The image *)

(** X9: [media_image_url] never raises and never calls the server: it is
    the placeholder, or else the client's artwork URL, and the latter
    only while the [state] property is playing or paused and a title is
    cached.  In state offline, error or idle it is the placeholder. *)
Theorem artwork_only_when_playing_or_paused (self : ItunesDevice.t) :
  ItunesDevice.media_image_url self = Ret ItunesDevice.placeholder_image \/
  (ItunesDevice.media_image_url self =
     Ret (Itunes._base_url (ItunesDevice.client self) +:+ "/artwork") /\
   (ItunesDevice.state self = "playing" \/ ItunesDevice.state self = "paused") /\
   ItunesDevice.media_title self <> PyNone).
Proof.
  unfold ItunesDevice.media_image_url, ItunesDevice.state,
    ItunesDevice.media_title, STATE_PLAYING, STATE_IDLE, STATE_PAUSED.
  destruct (py_is_none (ItunesDevice.current_title self)) eqn:Ht;
    [left; by rewrite andb_false_r |].
  apply py_is_none_false in Ht.
  destruct (py_eq_str (ItunesDevice.player_state self) "playing") eqn:E1.
  { apply py_eq_str_true in E1. rewrite E1. right. simpl. auto. }
  destruct (py_eq_str (ItunesDevice.player_state self) "idle") eqn:E2.
  { apply py_eq_str_true in E2. rewrite E2. right. simpl. auto. }
  destruct (py_eq_str (ItunesDevice.player_state self) "paused") eqn:E3.
  { apply py_eq_str_true in E3. rewrite E3. right. simpl. auto. }
  left. reflexivity.
Qed.

(** X10: for the two playing states the server reports, playing and
    paused, and a cached title, the image is the artwork URL. *)
Theorem artwork_when_server_plays (self : ItunesDevice.t) :
  ItunesDevice.player_state self = PyStr "playing" \/
  ItunesDevice.player_state self = PyStr "paused" ->
  ItunesDevice.current_title self <> PyNone ->
  ItunesDevice.media_image_url self =
    Ret (Itunes._base_url (ItunesDevice.client self) +:+ "/artwork").
Proof.
  intros Hs Ht.
  apply (proj1 (media_image_url_raw self)). tauto.
Qed.

Lemma artwork_when_server_plays_song_a :
  ItunesDevice.media_image_url playing_song_a =
    Ret "http://192.168.1.16:8181/artwork".
Proof.
  exact (artwork_when_server_plays playing_song_a (or_introl eq_refl)
           ltac:(discriminate)).
Defined.

(** ** Setting up the platform *)

(** X11: [setup_platform] fetches the state once from the configured
    host and port; whenever it completes it hands over exactly one
    device, named by the configuration or iTunes when no name is given;
    and it completes, with that device offline or in error, when the
    server cannot be reached. *)
Theorem setup_platform_one_device
    (name : option string) (host : string) (port : Z) :
  pending (setup_platform name host port) =
    Some (requests_get ((((host +:+ ":") +:+ py_str_of_int port)) +:+ "/now_playing")) /\
  (forall o, pending (answer o (setup_platform name host port)) = None) /\
  (forall o devices,
     answer o (setup_platform name host port) = Ret devices ->
     exists dev,
       devices = [dev] /\
       ItunesDevice.name dev = default "iTunes" name /\
       ItunesDevice.client dev = Itunes.__init__ host port) /\
  (forall e,
     is_RequestException e = true ->
     exists dev,
       answer (Failed e) (setup_platform name host port) = Ret [dev] /\
       ItunesDevice.state dev = (if is_HTTPError e then "error" else "offline")).
Proof.
  split; [reflexivity |]. split; [| split].
  - intros o. destruct o as [[st [body |]] | e].
    + destruct body; reflexivity.
    + reflexivity.
    + destruct e; reflexivity.
  - intros o devices H.
    destruct o as [[st [body |]] | e].
    + destruct body; try discriminate H.
      simpl in H. injection H as <-. eexists. repeat split.
    + discriminate H.
    + destruct e; try discriminate H;
        simpl in H; injection H as <-; eexists; repeat split.
  - intros e He.
    destruct e; try discriminate He; eexists; split; reflexivity.
Qed.

(** ** Reading the level and writing it back *)

Lemma level_echo (n : Z) :
  0 <= n <= 100 ->
  (0 <=? PrimFloat.of_uint63 (Uint63.of_Z n) / 100)%float = true /\
  (PrimFloat.of_uint63 (Uint63.of_Z n) / 100 <=? 1)%float = true /\
  py_int_of_float (PrimFloat.of_uint63 (Uint63.of_Z n) / 100 * 100)%float =
    Ok (if drifting_level n then n - 1 else n).
Proof.
  intros H.
  replace n with (Z.of_nat (Z.to_nat n)) by lia.
  assert (Hk : (Z.to_nat n <= 100)%nat) by lia.
  generalize dependent (Z.to_nat n). clear. intros k Hk.
  do 101 (destruct k as [|k]; [vm_compute; repeat split |]).
  lia.
Qed.

(** X12: for a cached integer volume from 0 to 100, [volume_level] lies
    between 0.0 and 1.0, and handing it back to [set_volume_level] sends
    the same volume, except for 29, 57 and 58, which go out as 28, 56
    and 57: there the binary64 product falls just below the integer and
    [int] truncates. *)
Theorem volume_level_write_back (self : ItunesDevice.t) (n : Z) :
  0 <= n <= 100 ->
  ItunesDevice.current_volume self = PyInt n ->
  exists f,
    ItunesDevice.volume_level self = Ret f /\
    (0 <=? f)%float = true /\ (f <=? 1)%float = true /\
    pending (ItunesDevice.set_volume_level self f) =
      Some (volume_request (ItunesDevice.client self)
              (if drifting_level n then n - 1 else n)).
Proof.
  intros Hn Hv.
  exists (PrimFloat.of_uint63 (Uint63.of_Z n) / 100)%float.
  destruct (level_echo n Hn) as (H0 & H1 & HL).
  split.
  { unfold ItunesDevice.volume_level. rewrite Hv.
    by rewrite (py_float_of_int_small n Hn). }
  split; [exact H0 |]. split; [exact H1 |].
  exact (proj1 (set_volume_level_sends self _ _ HL)).
Qed.

Lemma volume_level_write_back_29 :
  exists f,
    ItunesDevice.volume_level
      {| ItunesDevice._name := "iTunes";
         ItunesDevice._host := "http://192.168.1.16";
         ItunesDevice._port := 8181;
         ItunesDevice.client := Itunes.__init__ "http://192.168.1.16" 8181;
         ItunesDevice.current_volume := PyInt 29;
         ItunesDevice.muted := PyNone;
         ItunesDevice.current_title := PyNone;
         ItunesDevice.current_album := PyNone;
         ItunesDevice.current_artist := PyNone;
         ItunesDevice.current_playlist := PyNone;
         ItunesDevice.content_id := PyNone;
         ItunesDevice.player_state := PyStr "playing" |} = Ret f /\
    pending (ItunesDevice.set_volume_level kitchen f) =
      Some (volume_request (Itunes.__init__ "http://192.168.1.16" 8181) 28).
Proof.
  destruct (volume_level_write_back
              {| ItunesDevice._name := "iTunes";
                 ItunesDevice._host := "http://192.168.1.16";
                 ItunesDevice._port := 8181;
                 ItunesDevice.client := Itunes.__init__ "http://192.168.1.16" 8181;
                 ItunesDevice.current_volume := PyInt 29;
                 ItunesDevice.muted := PyNone;
                 ItunesDevice.current_title := PyNone;
                 ItunesDevice.current_album := PyNone;
                 ItunesDevice.current_artist := PyNone;
                 ItunesDevice.current_playlist := PyNone;
                 ItunesDevice.content_id := PyNone;
                 ItunesDevice.player_state := PyStr "playing" |}
              29 ltac:(lia) eq_refl) as (f & Hf & _ & _ & Hp).
  exists f. split; [exact Hf | exact Hp].
Defined.

(** ** The level stays in range

    The rounding of the binary64 multiplication, followed step by step:
    a product of at most 100 is rounded to a float of at most 100. *)

(** One shift of the rounding keeps a mantissa under [100 * 2^(-e)]:
    the value stays at most 100 and the exponent stays non-positive. *)
Lemma shr_fexp_at_most_100 (m e : Z) :
  e <= 0 -> 0 <= m <= 100 * 2 ^ (- e) ->
  let e' := snd (shr_fexp prec emax m e loc_Exact) in
  let mrs := fst (shr_fexp prec emax m e loc_Exact) in
  e <= e' <= 0 /\
  0 <= shr_m mrs <= 100 * 2 ^ (- e') /\
  (shr_m mrs = 100 * 2 ^ (- e') -> loc_of_shr_record mrs = loc_Exact).
Proof.
  intros He Hm e' mrs.
  assert (Hpe : 0 < 2 ^ (- e)) by (apply Z.pow_pos_nonneg; lia).
  assert (Hk : 0 <= m < 2 ^ (7 - e)).
  { replace (7 - e) with (7 + - e) by lia. rewrite Z.pow_add_r by lia.
    change (2 ^ 7) with 128. lia. }
  destruct (shr_fexp_bounds m e loc_Exact (7 - e) ltac:(lia) Hk) as [Hb1 Hb2].
  destruct (shr_fexp_floor m e ltac:(lia)) as [Hle [Hq Hr]].
  fold e' in Hb2, Hle, Hq, Hr. fold mrs in Hb1, Hq, Hr.
  assert (He' : e' <= 0) by lia.
  assert (Hpn : 0 < 2 ^ (e' - e)) by (apply Z.pow_pos_nonneg; lia).
  assert (Hsplit : 2 ^ (- e) = 2 ^ (- e') * 2 ^ (e' - e)).
  { rewrite <- Z.pow_add_r by lia. f_equal. lia. }
  assert (Hpe' : 0 < 2 ^ (- e')) by (apply Z.pow_pos_nonneg; lia).
  assert (Hup : shr_m mrs <= 100 * 2 ^ (- e')).
  { rewrite Hq. apply Z.div_le_upper_bound; [lia |]. rewrite Hsplit in Hm. nia. }
  split; [lia |]. split; [lia |].
  intros Heq.
  assert (Hz : m mod 2 ^ (e' - e) = 0).
  { pose proof (Z.div_mod m (2 ^ (e' - e)) ltac:(lia)) as Hdm.
    pose proof (Z.mod_pos_bound m (2 ^ (e' - e)) Hpn) as Hmb.
    rewrite <- Hq, Heq in Hdm. rewrite Hsplit in Hm. nia. }
  destruct (Hr Hz) as [Hrr Hrs].
  destruct mrs as [q r s]. simpl in Hrr, Hrs. by subst.
Qed.

(** Rounding a product that is at most 100 gives a float that is at
    most 100. *)
Lemma binary_round_aux_at_most_100 (s : bool) (mx : positive) (ex : Z) :
  ex <= 0 -> Z.pos mx <= 100 * 2 ^ (- ex) ->
  binary_round_aux prec emax s (Z.pos mx) ex loc_Exact = S754_zero s \/
  exists m e, binary_round_aux prec emax s (Z.pos mx) ex loc_Exact
              = S754_finite s m e /\
              e <= 0 /\ Z.pos m <= 100 * 2 ^ (- e).
Proof.
  intros He Hm. unfold binary_round_aux.
  pose proof (shr_fexp_at_most_100 (Z.pos mx) ex He ltac:(lia)) as H1.
  destruct (shr_fexp prec emax (Z.pos mx) ex loc_Exact) as [mrs1 e1].
  cbn [fst snd] in H1. destruct H1 as (He1 & Hm1 & Hx1).
  set (m2 := round_nearest_even (shr_m mrs1) (loc_of_shr_record mrs1)).
  assert (Hm2 : 0 <= m2 <= 100 * 2 ^ (- e1)).
  { pose proof (round_nearest_even_bounds (shr_m mrs1) (loc_of_shr_record mrs1)
                  ltac:(lia)) as Hr. fold m2 in Hr.
    destruct (Z.eq_dec (shr_m mrs1) (100 * 2 ^ (- e1))) as [Heq | Hne].
    - unfold m2. rewrite (Hx1 Heq). simpl. lia.
    - lia. }
  pose proof (shr_fexp_at_most_100 m2 e1 ltac:(lia) Hm2) as H2.
  destruct (shr_fexp prec emax m2 e1 loc_Exact) as [mrs2 e2].
  cbn [fst snd] in H2. destruct H2 as (He2 & Hm3 & _).
  destruct (shr_m mrs2) as [| p | p]; [by left | | lia].
  right. assert (Hle : (e2 <=? emax - prec) = true).
  { apply Z.leb_le. unfold emax, prec. lia. }
  rewrite Hle. exists p, e2. split; [reflexivity |]. split; lia.
Qed.

Lemma unit_interval_float_le (v : float) :
  (0 <=? v)%float = true -> (v <=? 1)%float = true ->
  (exists s, Prim2SF v = S754_zero s) \/
  exists m e, Prim2SF v = S754_finite false m e /\ e <= -52 /\
              Z.pos m <= 2 ^ (- e).
Proof.
  intros H0 H1.
  destruct (unit_interval_float v H0 H1) as [Hz | (m & e & Hf & He & Hm)];
    [by left | right].
  exists m, e. split; [exact Hf |]. split; [exact He |].
  destruct (Z.eq_dec e (-52)) as [He52 | Hne].
  - rewrite leb_spec, Hf in H1.
    change (Prim2SF 1) with (S754_finite false 4503599627370496 (-52)) in H1.
    unfold SFleb, SFcompare in H1.
    destruct (e ?= -52) eqn:Hce; try discriminate H1;
      [| rewrite Z.compare_lt_iff in Hce; lia].
    destruct (Pos.compare_cont Eq m 4503599627370496) eqn:Hpc;
      try discriminate H1; clear H1.
    + apply (Pos.compare_eq m 4503599627370496) in Hpc.
      rewrite He52, Hpc. vm_compute. discriminate.
    + apply (Pos.compare_lt_iff m 4503599627370496) in Hpc.
      apply Pos2Z.pos_lt_pos in Hpc.
      rewrite He52.
      assert (Hpow : 2 ^ (- -52) = 4503599627370496) by (vm_compute; reflexivity).
      rewrite Hpow. apply Z.lt_le_incl. exact Hpc.
  - eapply Z.le_trans; [apply Z.lt_le_incl, Hm |].
    apply Z.pow_le_mono_r; lia.
Qed.

Lemma scaled_unit_interval_le (v : float) :
  (0 <=? v)%float = true -> (v <=? 1)%float = true ->
  (exists s, Prim2SF (v * 100)%float = S754_zero s) \/
  exists m e, Prim2SF (v * 100)%float = S754_finite false m e /\
              e <= 0 /\ Z.pos m <= 100 * 2 ^ (- e).
Proof.
  intros H0 H1. rewrite mul_spec.
  change (Prim2SF 100) with (S754_finite false 7036874417766400 (-46)).
  destruct (unit_interval_float_le v H0 H1) as [[s ->] | (m & e & -> & He & Hm)].
  - left. simpl. eauto.
  - unfold SF64mul, SFmul. cbn [xorb].
    assert (Hprod : Z.pos (m * 7036874417766400) <= 100 * 2 ^ (- (e + -46))).
    { rewrite Pos2Z.inj_mul.
      replace (- (e + -46)) with (- e + 46) by lia.
      rewrite Z.pow_add_r by lia.
      assert (HM : Z.pos 7036874417766400 = 100 * 2 ^ 46)
        by (vm_compute; reflexivity).
      rewrite HM.
      set (a := 2 ^ (- e)) in *. set (b := 2 ^ 46) in *.
      assert (Hb : 0 <= 100 * b) by (subst b; vm_compute; discriminate).
      pose proof (Z.mul_le_mono_nonneg_r (Z.pos m) a (100 * b) Hb Hm) as Hle.
      replace (100 * (a * b)) with (a * (100 * b)) by ring.
      exact Hle. }
    destruct (binary_round_aux_at_most_100 false (m * 7036874417766400)
                (e + -46) ltac:(lia) Hprod) as [Hz | Hf].
    + left. eauto.
    + right. exact Hf.
Qed.

(** X13: for every [v] from 0.0 to 1.0 the level [set_volume_level(v)]
    sends is an integer from 0 to 100, the range [set_volume] documents:
    rounding the product [v * 100] never takes it above 100. *)
Theorem set_volume_level_within_range (self : ItunesDevice.t) (v : float) :
  (0 <=? v)%float = true -> (v <=? 1)%float = true ->
  exists L,
    0 <= L <= 100 /\
    pending (ItunesDevice.set_volume_level self v) =
      Some (volume_request (ItunesDevice.client self) L).
Proof.
  intros H0 H1.
  destruct (scaled_unit_interval_le v H0 H1)
    as [[s Hz] | (m & e & Hf & He & Hm)].
  - exists 0. split; [lia |].
    apply (set_volume_level_sends self v 0).
    unfold py_int_of_float. by rewrite Hz.
  - exists (Z.shiftl (Z.pos m) e).
    assert (Hp : 0 < 2 ^ (- e)) by (apply Z.pow_pos_nonneg; lia).
    split.
    + rewrite Z.shiftl_div_pow2 by lia. split.
      * apply Z.div_pos; lia.
      * apply Z.div_le_upper_bound; lia.
    + apply (set_volume_level_sends self v).
      unfold py_int_of_float. by rewrite Hf.
Qed.

Lemma set_volume_level_full :
  (0 <=? 1)%float = true /\ (1 <=? 1)%float = true /\
  exists L,
    0 <= L <= 100 /\
    pending (ItunesDevice.set_volume_level kitchen 1) =
      Some (volume_request (ItunesDevice.client kitchen) L).
Proof.
  split; [reflexivity |]. split; [reflexivity |].
  exact (set_volume_level_within_range kitchen 1 eq_refl eq_refl).
Defined.

(** ** The port in the base URL *)

Lemma read_digits_step (c : Ascii.ascii) (rest : string) (acc : Z) :
  read_digits (String c rest) acc =
  if (0 <=? Z.of_nat (Ascii.nat_of_ascii c) - 48)
     && (Z.of_nat (Ascii.nat_of_ascii c) - 48 <=? 9)
  then read_digits rest (10 * acc + (Z.of_nat (Ascii.nat_of_ascii c) - 48))
  else None.
Proof. reflexivity. Qed.

Lemma read_digit_char (d : Z) (rest : string) (acc : Z) :
  0 <= d <= 9 ->
  read_digits (digit_char d +:+ rest) acc = read_digits rest (10 * acc + d).
Proof.
  intros Hd. unfold digit_char.
  change (String (Ascii.ascii_of_nat (48 + Z.to_nat d)) "" +:+ rest)
    with (String (Ascii.ascii_of_nat (48 + Z.to_nat d)) rest).
  rewrite read_digits_step.
  rewrite Ascii.nat_ascii_embedding by lia.
  replace (Z.of_nat (48 + Z.to_nat d) - 48) with d by lia.
  assert (H : (0 <=? d) && (d <=? 9) = true).
  { apply andb_true_intro. split; apply Z.leb_le; lia. }
  by rewrite H.
Qed.

Lemma read_pos_digits (fuel : nat) :
  forall n rest acc,
    0 <= n < 2 ^ Z.of_nat fuel ->
    exists k, 0 <= k /\
      read_digits (pos_digits fuel n rest) acc =
      read_digits rest (acc * 10 ^ k + n).
Proof.
  induction fuel as [| fuel IH]; intros n rest acc Hn.
  - exists 0. simpl in *. split; [lia |]. f_equal. lia.
  - assert (Hpow : 2 ^ Z.of_nat (S fuel) = 2 * 2 ^ Z.of_nat fuel).
    { rewrite Nat2Z.inj_succ, Z.pow_succ_r by lia. reflexivity. }
    assert (Hmod : 0 <= n mod 10 <= 9)
      by (pose proof (Z.mod_pos_bound n 10 ltac:(lia)); lia).
    simpl pos_digits.
    destruct (n <? 10) eqn:Hlt.
    + apply Z.ltb_lt in Hlt. exists 1. split; [lia |].
      rewrite read_digit_char by exact Hmod.
      rewrite Z.mod_small by lia. f_equal. lia.
    + apply Z.ltb_ge in Hlt.
      destruct (IH (n / 10) (digit_char (n mod 10) +:+ rest) acc) as (k & Hk & Hr).
      { split; [apply Z.div_pos; lia |].
        apply Z.div_lt_upper_bound; lia. }
      exists (k + 1). split; [lia |].
      rewrite Hr, read_digit_char by exact Hmod.
      f_equal. rewrite Z.pow_add_r by lia.
      pose proof (Z.div_mod n 10 ltac:(lia)). lia.
Qed.

Lemma pos_digits_not_empty (fuel : nat) (n : Z) :
  pos_digits (S fuel) n "" <> "".
Proof.
  assert (H : forall f m rest, rest <> "" -> pos_digits f m rest <> "").
  { induction f as [| f IH]; intros m rest Hr; simpl; [exact Hr |].
    destruct (m <? 10); [discriminate |]. apply IH. discriminate. }
  simpl. destruct (n <? 10); [discriminate |]. apply H. discriminate.
Qed.

(** X14: the base URL is the host, a colon, and the port written in
    decimal: for a port that is not negative, the text after the colon
    is made of digits only and reads back as the port. *)
Theorem base_url_port_in_decimal (host : string) (port : Z) :
  0 <= port ->
  exists digits,
    Itunes._base_url (Itunes.__init__ host port) = (host +:+ ":") +:+ digits /\
    read_decimal digits = Some port.
Proof.
  intros Hp. exists (py_str_of_int port). split; [reflexivity |].
  unfold py_str_of_int.
  assert (Hneg : (port <? 0) = false) by (apply Z.ltb_ge; lia).
  rewrite Hneg.
  set (fuel := Z.to_nat (Z.log2 port)).
  pose proof (pos_digits_not_empty fuel port) as Hne.
  destruct (read_pos_digits (S fuel) port "" 0) as (k & Hk & Hr).
  { split; [lia |].
    rewrite Nat2Z.inj_succ. unfold fuel.
    rewrite Z2Nat.id by apply Z.log2_nonneg.
    destruct (Z.eq_dec port 0) as [-> | Hnz]; [reflexivity |].
    apply Z.log2_spec. lia. }
  unfold read_decimal.
  destruct (pos_digits (S fuel) port "") eqn:Hd; [done |].
  rewrite Hr. simpl. f_equal.
Qed.

Lemma base_url_port_8181 :
  0 <= 8181 /\
  exists digits,
    Itunes._base_url (Itunes.__init__ "http://192.168.1.16" 8181) =
      ("http://192.168.1.16" +:+ ":") +:+ digits /\
    read_decimal digits = Some 8181.
Proof.
  split; [lia |].
  exact (base_url_port_in_decimal "http://192.168.1.16" 8181 ltac:(lia)).
Defined.

(** ** Reading the state back *)

(** X15: each of the four states other than playing tells what the
    server reported: idle exactly for stopped, paused for paused, error
    for error, and offline exactly for offline or no report at all. *)
Theorem state_tells_player_state (self : ItunesDevice.t) :
  (ItunesDevice.state self = "idle" <->
   ItunesDevice.player_state self = PyStr "stopped") /\
  (ItunesDevice.state self = "paused" <->
   ItunesDevice.player_state self = PyStr "paused") /\
  (ItunesDevice.state self = "error" <->
   ItunesDevice.player_state self = PyStr "error") /\
  (ItunesDevice.state self = "offline" <->
   ItunesDevice.player_state self = PyNone \/
   ItunesDevice.player_state self = PyStr "offline").
Proof.
  unfold ItunesDevice.state, STATE_IDLE, STATE_PAUSED, STATE_PLAYING.
  destruct (py_eq_str (ItunesDevice.player_state self) "offline") eqn:E0;
    [apply py_eq_str_true in E0; rewrite E0; simpl;
     repeat split; intros H; try discriminate H; auto;
     destruct H as [H | H]; discriminate H |].
  destruct (py_is_none (ItunesDevice.player_state self)) eqn:E1;
    [destruct (ItunesDevice.player_state self); try discriminate E1; simpl;
     repeat split; intros H; try discriminate H; auto |].
  apply py_eq_str_false in E0. apply py_is_none_false in E1. cbn [orb].
  destruct (py_eq_str (ItunesDevice.player_state self) "error") eqn:E2;
    [apply py_eq_str_true in E2; rewrite E2;
     repeat split; intros H; try discriminate H; auto;
     destruct H as [H | H]; discriminate H |].
  destruct (py_eq_str (ItunesDevice.player_state self) "stopped") eqn:E3;
    [apply py_eq_str_true in E3; rewrite E3;
     repeat split; intros H; try discriminate H; auto;
     destruct H as [H | H]; discriminate H |].
  destruct (py_eq_str (ItunesDevice.player_state self) "paused") eqn:E4;
    [apply py_eq_str_true in E4; rewrite E4;
     repeat split; intros H; try discriminate H; auto;
     destruct H as [H | H]; discriminate H |].
  apply py_eq_str_false in E2, E3, E4.
  repeat split; intros H; try discriminate H; try contradiction; tauto.
Qed.

(** ** Commands are not applied to the cache *)

(** X16: what a command asked for never reaches the cache by itself: once
    its call is answered, any two operations of a device end alike,
    whatever level or mute flag they sent. *)
Theorem answer_decides_result
    (op1 op2 : adapter_op) (self : ItunesDevice.t) (o : call_outcome) :
  pending (perform op1 self) <> None ->
  pending (perform op2 self) <> None ->
  answer o (perform op1 self) = answer o (perform op2 self).
Proof.
  intros H1 H2.
  assert (Hu : forall op, pending (perform op self) <> None ->
            answer o (perform op self) = answer o (ItunesDevice.update self)).
  { intros op Hp. destruct op; try reflexivity.
    cbn [perform] in Hp |- *. unfold ItunesDevice.set_volume_level in Hp |- *.
    destruct (py_int_of_float (volume * 100)); [reflexivity | done]. }
  by rewrite (Hu op1 H1), (Hu op2 H2).
Qed.

Lemma answer_decides_result_mute :
  answer song_a_response (perform (op_mute_volume true) kitchen) =
  answer song_a_response (perform (op_set_volume_level 0.25) kitchen).
Proof.
  exact (answer_decides_result (op_mute_volume true) (op_set_volume_level 0.25)
           kitchen song_a_response ltac:(discriminate) ltac:(discriminate)).
Defined.
